(** * vra_guest: a shallow embedding of the vRA guest provisioning module

    The development follows [lib/ansible/modules/cloud/vmware/vra_guest.py]:
    the [VRAHelper] class (authentication, catalog lookup, template fetch and
    customization, creation request, inventory lookup, state and build status)
    and [run_module], the linear workflow that drives it.

    - JSON documents are the values [json.loads] produces: [null], booleans,
      integers, strings, arrays and objects.  Objects are finite maps from
      strings ([gmap string json]); numbers are integers ([Z]), so documents
      with fractional numbers are outside the embedding.
    - A parsed document is a tree without sharing, and the program only ever
      mutates documents it has just parsed or deep-copied.  In-place mutation
      through an alias ([metadata = template['data'][..]['data']]) is therefore
      a functional update at the aliased path, and [copy.deepcopy] is the
      identity on values.
    - Python exceptions are values of [exn]; [res] is the pure error monad of
      expressions that may raise.
    - Methods run in the monad [M]: state passing over the helper object and
      the trace of issued calls, with the four ways a Python statement ends
      (normal, raised exception, [exit_json], [fail_json]) and two markers of
      the embedding itself (a behaviour left out, a loop cut short).
    - The remote service is an arbitrary deterministic oracle: a function of
      the whole history (earlier calls, method entries and sleeps) and of the
      current call. *)

From Stdlib Require Import ZArith String DecimalString.
From stdpp Require Import base option list gmap strings.

#[local] Set Warnings "-register-all".
#[local] Open Scope string_scope.
#[local] Open Scope list_scope.
#[local] Open Scope Z_scope.

(** ** JSON values *)

Inductive json :=
| JNull
| JBool (b : bool)
| JInt (z : Z)
| JStr (s : string)
| JList (l : list json)
| JDict (m : gmap string json).

(** ** Exceptions and the pure error monad *)

(** [str_exn e] is [str(e)], the text [% e] puts into a failure message.  A
    [KeyError] carries the [repr] of the missing key; the other exceptions
    carry their text (the texts below are CPython 3.6's). *)
Inductive exn :=
| KeyError (key_repr : string)
| IndexError (msg : string)
| TypeError (msg : string)
| ValueError (msg : string)
| AttributeError (msg : string)
| RequestException (msg : string).

Definition str_exn (e : exn) : string :=
  match e with
  | KeyError k => k
  | IndexError m | TypeError m | ValueError m
  | AttributeError m | RequestException m => m
  end.

Inductive res (A : Type) :=
| Ok (a : A)
| Err (e : exn).
Arguments Ok {A} a.
Arguments Err {A} e.

#[global] Instance res_ret : MRet res := λ A, Ok.
#[global] Instance res_bind : MBind res := λ A B f r,
  match r with
  | Ok a => f a
  | Err e => Err e
  end.

(** ** Python operations on JSON values *)

(** [%s] of an integer. *)
Definition str_int (z : Z) : string := NilZero.string_of_int (Z.to_int z).

(** [repr] of a string, which is the text of a [KeyError] for a string key.
    A character of the embedding is a code point below 256.  Python puts the
    string in single quotes, or in double quotes when it holds a single quote
    and no double quote; it escapes the backslash and the quote in use,
    writes tab, newline and carriage return as [\t], [\n] and [\r], and every
    other character that is not printable as [\x] and two lower-case
    hexadecimal digits.  Below 256 the printable characters are 32 to 126 and
    161 to 255 without 173. *)
Definition single_quote : Ascii.ascii := Ascii.ascii_of_nat 39.
Definition double_quote : Ascii.ascii := Ascii.ascii_of_nat 34.
Definition backslash : Ascii.ascii := Ascii.ascii_of_nat 92.

Definition hex_digit (n : nat) : Ascii.ascii :=
  List.nth n (list_ascii_of_string "0123456789abcdef") (Ascii.ascii_of_nat 48).

Definition hex_escape (c : Ascii.ascii) : string :=
  String backslash
    (String (Ascii.ascii_of_nat 120)
       (String (hex_digit (Nat.div (Ascii.nat_of_ascii c) 16))
          (String (hex_digit (Nat.modulo (Ascii.nat_of_ascii c) 16)) EmptyString))).

Definition printable (n : nat) : bool :=
  (Nat.leb 32 n && Nat.leb n 126) || (Nat.leb 161 n && negb (Nat.eqb n 173)).

Definition repr_char (quote c : Ascii.ascii) : string :=
  let n := Ascii.nat_of_ascii c in
  if Ascii.eqb c quote || Ascii.eqb c backslash then String backslash (String c EmptyString)
  else if Nat.eqb n 9 then String backslash "t"
  else if Nat.eqb n 10 then String backslash "n"
  else if Nat.eqb n 13 then String backslash "r"
  else if printable n then String c EmptyString
  else hex_escape c.

Fixpoint repr_chars (quote : Ascii.ascii) (s : string) : string :=
  match s with
  | EmptyString => EmptyString
  | String c s' => repr_char quote c +:+ repr_chars quote s'
  end.

Fixpoint contains (c : Ascii.ascii) (s : string) : bool :=
  match s with
  | EmptyString => false
  | String c' s' => Ascii.eqb c c' || contains c s'
  end.

Definition repr_str (k : string) : string :=
  let quote :=
    if contains single_quote k && negb (contains double_quote k)
    then double_quote else single_quote in
  String quote (repr_chars quote k +:+ String quote EmptyString).

Definition type_name (j : json) : string :=
  match j with
  | JNull => "NoneType"
  | JBool _ => "bool"
  | JInt _ => "int"
  | JStr _ => "str"
  | JList _ => "list"
  | JDict _ => "dict"
  end.

Definition not_subscriptable (j : json) : exn :=
  TypeError ("'" +:+ type_name j +:+ "' object is not subscriptable").

(** [j[k]] for a string key [k]. *)
Definition getitem (j : json) (k : string) : res json :=
  match j with
  | JDict m =>
      match m !! k with
      | Some v => Ok v
      | None => Err (KeyError (repr_str k))
      end
  | JList _ => Err (TypeError "list indices must be integers or slices, not str")
  | JStr _ => Err (TypeError "string indices must be integers")
  | _ => Err (not_subscriptable j)
  end.

(** [j[0]]. *)
Definition getitem0 (j : json) : res json :=
  match j with
  | JList (x :: _) => Ok x
  | JList [] => Err (IndexError "list index out of range")
  | JDict _ => Err (KeyError "0")
  | JStr (String c _) => Ok (JStr (String c EmptyString))
  | JStr EmptyString => Err (IndexError "string index out of range")
  | _ => Err (not_subscriptable j)
  end.

(** [j[k] = v] for a string key [k]; the result is the updated container. *)
Definition setitem (j : json) (k : string) (v : json) : res json :=
  match j with
  | JDict m => Ok (JDict (<[k:=v]> m))
  | JList _ => Err (TypeError "list indices must be integers or slices, not str")
  | _ => Err (TypeError ("'" +:+ type_name j +:+ "' object does not support item assignment"))
  end.

(** [j[k1][k2] = v]: the inner container is reached through [j], so the
    update shows in [j]. *)
Definition setitem2 (j : json) (k1 k2 : string) (v : json) : res json :=
  inner ← getitem j k1;
  inner' ← setitem inner k2 v;
  setitem j k1 inner'.

(** [j.append(x)]. *)
Definition append (j x : json) : res json :=
  match j with
  | JList l => Ok (JList (l ++ [x]))
  | _ => Err (AttributeError ("'" +:+ type_name j +:+ "' object has no attribute 'append'"))
  end.

Fixpoint chars (s : string) : list json :=
  match s with
  | EmptyString => []
  | String c s' => JStr (String c EmptyString) :: chars s'
  end.

(** The elements a [for] loop or a comprehension sees.  Iterating an object
    yields its keys; the embedding yields them in the map's key order, not in
    insertion order. *)
Definition iter (j : json) : res (list json) :=
  match j with
  | JList l => Ok l
  | JDict m => Ok (JStr <$> (map_to_list m).*1)
  | JStr s => Ok (chars s)
  | _ => Err (TypeError ("'" +:+ type_name j +:+ "' object is not iterable"))
  end.

(** [j == s] for a string [s]: only a string can be equal to a string. *)
Definition eq_str (j : json) (s : string) : bool :=
  match j with
  | JStr t => bool_decide (t = s)
  | _ => false
  end.

(** [j == None] (and [j is None]). *)
Definition is_none (j : json) : bool :=
  match j with
  | JNull => true
  | _ => false
  end.

(** [j + 1] ([bool] is a subclass of [int]). *)
Definition add1 (j : json) : res json :=
  match j with
  | JInt z => Ok (JInt (z + 1))
  | JBool b => Ok (JInt (Z.b2z b + 1))
  | JStr _ => Err (TypeError "must be str, not int")
  | JList _ => Err (TypeError "'int' object is not iterable")
  | _ => Err (TypeError ("unsupported operand type(s) for +=: '" +:+ type_name j +:+ "' and 'int'"))
  end.

(** [[x for x in l if p x]] where the test may raise. *)
Fixpoint comprehension (p : json → res bool) (l : list json) : res (list json) :=
  match l with
  | [] => Ok []
  | x :: l' =>
      b ← p x;
      rest ← comprehension p l';
      Ok (if b : bool then x :: rest else rest)
  end.

(** ** Module parameters *)

Record params := {
  blueprint_instance_id : string;
  blueprint_name : string;
  cpu : Z;
  extra_disks : list json;
  hostname : string;
  memory : Z;
  network_adapter : string;
  vra_hostname : string;
  vra_password : string;
  vra_tenant : string;
  vra_username : string;
  wait_timeout : Z
}.

(** ** Template customization (lines 216-238)

    Aliases in [customize_template]: [metadata] is the dictionary inside
    [template], so its updates are written back along the path it was read
    from; [disk_meta_orig] and every [disk_meta] are deep copies, which share
    nothing with the disk list or with each other; the requests in
    [extra_disks] are only read. *)

(** The body of the [for i, disk in enumerate(self.extra_disks)] loop, run on
    the remaining disks from index [i]; the loop state is the running
    [disk_id] and [metadata], whose ['disks'] list is appended to. *)
Fixpoint add_disks (disk_meta_orig : json) (extra : list json) (i : nat)
    (disk_id metadata : json) : res json :=
  match extra with
  | [] => Ok metadata
  | disk :: extra' =>
      disk_id ← add1 disk_id;
      let disk_meta := disk_meta_orig in
      size_gb ← getitem disk "size_gb";
      disk_meta ← setitem2 disk_meta "data" "capacity" size_gb;
      disk_meta ← setitem2 disk_meta "data" "label"
                    (JStr ("Hard disk " +:+ str_int (Z.of_nat i + 2)));
      disk_meta ← setitem2 disk_meta "data" "volumeId" (JInt (Z.of_nat i + 1));
      disk_meta ← setitem2 disk_meta "data" "id" disk_id;
      disk_meta ← setitem2 disk_meta "data" "userCreated" (JStr "true");
      disk_meta ← setitem2 disk_meta "data" "is_clone" (JStr "false");
      mount_point ← getitem disk "mount_point";
      disk_meta ← setitem2 disk_meta "data" "initial_location" mount_point;
      disks ← getitem metadata "disks";
      disks ← append disks disk_meta;
      metadata ← setitem metadata "disks" disks;
      add_disks disk_meta_orig extra' (S i) disk_id metadata
  end.

(** Lines 217-238 on the dictionary [template]: the four scalar overwrites,
    the extra disks, and [template] as seen once [metadata] has been mutated. *)
Definition customize (p : params) (template : gmap string json) : res json :=
  data ← getitem (JDict template) "data";
  instance ← getitem data (blueprint_instance_id p);
  metadata ← getitem instance "data";
  metadata ← setitem metadata "cpu" (JInt (cpu p));
  metadata ← setitem metadata "memory" (JInt (memory p));
  metadata ← setitem metadata "Hostname" (JStr (hostname p));
  metadata ← setitem metadata "VirtualMachine.Network0.Name" (JStr (network_adapter p));
  metadata ←
    (if bool_decide (1 ≤ length (extra_disks p))%nat then
       disks ← getitem metadata "disks";
       disk_meta_orig ← getitem0 disks;
       disk_data ← getitem disk_meta_orig "data";
       disk_id ← getitem disk_data "id";
       add_disks disk_meta_orig (extra_disks p) 0 disk_id metadata
     else Ok metadata);
  instance ← setitem instance "data" metadata;
  data ← setitem data (blueprint_instance_id p) instance;
  Ok (JDict (<["data" := data]> template)).

(** ** The remote service and the trace of a run *)

Inductive call :=
| PostTokens (username password tenant : string)
| GetEntitledCatalogItems
| GetRequestTemplate (catalog_id : json)
| PostRequests (catalog_id body : json)
| GetVirtualResources
| GetRequestResources (request_id : json)
| GetResource (destroy_id : json)
| GetRequest (request_id : json).

Inductive method :=
| MGetAuth
| MGetCatalogId
| MGetTemplateJson
| MCustomizeTemplate
| MCreateVmFromTemplate
| MGetVm
| MGetVmState
| MGetVmBuildStatus.

(** What a run leaves behind, newest first: the HTTP calls it issued, the
    helper methods it entered and its sleeps. *)
Inductive event :=
| Http (c : call)
| Invoke (m : method)
| Sleep (seconds : Z).

(** [requests.request] either raises or returns a response object; the
    response object is modelled by what its [.json()] gives. *)
Inductive reply :=
| Refused (msg : string)
| Response (body : res json).

(** ** The helper object and the monad of methods *)

(** [self.template_json] first holds the response of the template request
    and afterwards the customized dictionary. *)
Inductive template_slot :=
| TResponse (body : res json)
| TDict (template : json).

(** The attributes of a [VRAHelper]; [None] is an attribute that has not been
    assigned yet.  [ip] is assigned [None] by the constructor, which is
    [JNull]. *)
Record VRAHelper := {
  authorization : option json;
  catalog_id : option json;
  template_json : option template_slot;
  request_id : option json;
  destroy_id : option json;
  ip : json;
  state : option json;
  build_status : option json;
  build_explanation : option json
}.

Record world := {
  self : VRAHelper;
  trace : list event
}.

(** The dictionary handed to [exit_json]. *)
Record result := {
  result_changed : bool;
  result_failed : bool;
  result_state : json;
  result_destroy_id : json;
  result_ip : json;
  result_hostname : json
}.

(** How a statement ends.  [exit_json] and [fail_json] raise [SystemExit],
    which [except Exception] does not catch.  [Unmodelled] marks the two
    behaviours the embedding leaves out ([dict()] of a non-empty array and
    [%s] of an array or object); [OutOfFuel] is a polling loop cut short. *)
Inductive outcome (A : Type) :=
| Ret (a : A)
| Raise (e : exn)
| ExitJson (r : result)
| FailJson (msg : string)
| Unmodelled
| OutOfFuel.
Arguments Ret {A} a.
Arguments Raise {A} e.
Arguments ExitJson {A} r.
Arguments FailJson {A} msg.
Arguments Unmodelled {A}.
Arguments OutOfFuel {A}.

Definition M (A : Type) : Type := world → outcome A * world.

#[global] Instance M_ret : MRet M := λ A a w, (Ret a, w).
#[global] Instance M_bind : MBind M := λ A B f m w,
  match m w with
  | (Ret a, w') => f a w'
  | (Raise e, w') => (Raise e, w')
  | (ExitJson r, w') => (ExitJson r, w')
  | (FailJson msg, w') => (FailJson msg, w')
  | (Unmodelled, w') => (Unmodelled, w')
  | (OutOfFuel, w') => (OutOfFuel, w')
  end.

Definition raise {A} (e : exn) : M A := λ w, (Raise e, w).
Definition unmodelled {A} : M A := λ w, (Unmodelled, w).
Definition out_of_fuel {A} : M A := λ w, (OutOfFuel, w).
Definition exit_json {A} (r : result) : M A := λ w, (ExitJson r, w).
Definition fail_json {A} (msg : string) : M A := λ w, (FailJson msg, w).

Definition lift {A} (r : res A) : M A :=
  match r with
  | Ok a => mret a
  | Err e => raise e
  end.

(** [try: body except Exception as e: handler e]. *)
Definition try_except {A} (body : M A) (handler : exn → M A) : M A := λ w,
  match body w with
  | (Raise e, w') => handler e w'
  | r => r
  end.

Definition record (ev : event) : M unit := λ w,
  (Ret (), {| self := self w; trace := ev :: trace w |}).

Definition invoke (m : method) : M unit := record (Invoke m).

(** [time.sleep(seconds)]. *)
Definition sleep (seconds : Z) : M unit := record (Sleep seconds).

(** Reading [self.name]: an attribute never assigned raises. *)
Definition attr {A} (name : string) (field : VRAHelper → option A) : M A := λ w,
  match field (self w) with
  | Some v => (Ret v, w)
  | None =>
      (Raise (AttributeError
                ("'VRAHelper' object has no attribute '" +:+ name +:+ "'")), w)
  end.

Definition get_ip : M json := λ w, (Ret (ip (self w)), w).

Definition update (f : VRAHelper → VRAHelper) : M unit := λ w,
  (Ret (), {| self := f (self w); trace := trace w |}).

Definition set_authorization (v : json) (h : VRAHelper) : VRAHelper :=
  {| authorization := Some v; catalog_id := catalog_id h;
     template_json := template_json h; request_id := request_id h;
     destroy_id := destroy_id h; ip := ip h; state := state h;
     build_status := build_status h; build_explanation := build_explanation h |}.

Definition set_catalog_id (v : json) (h : VRAHelper) : VRAHelper :=
  {| authorization := authorization h; catalog_id := Some v;
     template_json := template_json h; request_id := request_id h;
     destroy_id := destroy_id h; ip := ip h; state := state h;
     build_status := build_status h; build_explanation := build_explanation h |}.

Definition set_template_json (v : template_slot) (h : VRAHelper) : VRAHelper :=
  {| authorization := authorization h; catalog_id := catalog_id h;
     template_json := Some v; request_id := request_id h;
     destroy_id := destroy_id h; ip := ip h; state := state h;
     build_status := build_status h; build_explanation := build_explanation h |}.

Definition set_request_id (v : json) (h : VRAHelper) : VRAHelper :=
  {| authorization := authorization h; catalog_id := catalog_id h;
     template_json := template_json h; request_id := Some v;
     destroy_id := destroy_id h; ip := ip h; state := state h;
     build_status := build_status h; build_explanation := build_explanation h |}.

Definition set_destroy_id (v : json) (h : VRAHelper) : VRAHelper :=
  {| authorization := authorization h; catalog_id := catalog_id h;
     template_json := template_json h; request_id := request_id h;
     destroy_id := Some v; ip := ip h; state := state h;
     build_status := build_status h; build_explanation := build_explanation h |}.

Definition set_ip (v : json) (h : VRAHelper) : VRAHelper :=
  {| authorization := authorization h; catalog_id := catalog_id h;
     template_json := template_json h; request_id := request_id h;
     destroy_id := destroy_id h; ip := v; state := state h;
     build_status := build_status h; build_explanation := build_explanation h |}.

Definition set_state (v : json) (h : VRAHelper) : VRAHelper :=
  {| authorization := authorization h; catalog_id := catalog_id h;
     template_json := template_json h; request_id := request_id h;
     destroy_id := destroy_id h; ip := ip h; state := Some v;
     build_status := build_status h; build_explanation := build_explanation h |}.

Definition set_build_status (v : json) (h : VRAHelper) : VRAHelper :=
  {| authorization := authorization h; catalog_id := catalog_id h;
     template_json := template_json h; request_id := request_id h;
     destroy_id := destroy_id h; ip := ip h; state := state h;
     build_status := Some v; build_explanation := build_explanation h |}.

Definition set_build_explanation (v : json) (h : VRAHelper) : VRAHelper :=
  {| authorization := authorization h; catalog_id := catalog_id h;
     template_json := template_json h; request_id := request_id h;
     destroy_id := destroy_id h; ip := ip h; state := state h;
     build_status := build_status h; build_explanation := Some v |}.

(** [dict(j)] of a parsed document.  An object is copied; an empty array or
    string gives the empty dictionary; a non-empty string fails on its first
    character.  A non-empty array is read as a sequence of key/value pairs,
    which can produce keys that are not strings: that case is left out. *)
Definition py_dict (j : json) : M (gmap string json) :=
  match j with
  | JDict m => mret m
  | JList [] | JStr EmptyString => mret ∅
  | JList (_ :: _) => unmodelled
  | JStr (String _ _) =>
      raise (ValueError "dictionary update sequence element #0 has length 1; 2 is required")
  | _ => raise (TypeError ("'" +:+ type_name j +:+ "' object is not iterable"))
  end.

(** [%s] of a JSON scalar; arrays and objects are left out. *)
Definition py_str (j : json) : M string :=
  match j with
  | JStr s => mret s
  | JInt z => mret (str_int z)
  | JBool true => mret "True"
  | JBool false => mret "False"
  | JNull => mret "None"
  | _ => unmodelled
  end.

(** [found[0]] on the list a comprehension built. *)
Definition first (found : list json) : res json :=
  match found with
  | x :: _ => Ok x
  | [] => Err (IndexError "list index out of range")
  end.

(** [catalog_dict[item_name] = item_id].  A key that is an array or object is
    unhashable.  A hashable key that is not a string can never be found by
    the string lookup that follows, so it is not stored. *)
Definition catalog_store (catalog_dict : gmap string json) (item_name item_id : json)
    : res (gmap string json) :=
  match item_name with
  | JStr s => Ok (<[s:=item_id]> catalog_dict)
  | JList _ | JDict _ =>
      Err (TypeError ("unhashable type: '" +:+ type_name item_name +:+ "'"))
  | _ => Ok catalog_dict
  end.

(** The [for i in response.json()['content']] loop of [get_catalog_id]. *)
Fixpoint catalog_loop (items : list json) (catalog_dict : gmap string json)
    : res (gmap string json) :=
  match items with
  | [] => Ok catalog_dict
  | i :: items' =>
      catalog_item ← getitem i "catalogItem";
      item_name ← getitem catalog_item "name";
      catalog_item ← getitem i "catalogItem";
      item_id ← getitem catalog_item "id";
      catalog_dict ← catalog_store catalog_dict item_name item_id;
      catalog_loop items' catalog_dict
  end.

(** [[i for i in response.json()['content'] if i['name'] == hostname]]. *)
Definition matching_vms (response : res json) (hostname : string) : res (list json) :=
  body ← response;
  content ← getitem body "content";
  items ← iter content;
  comprehension (λ i, name ← getitem i "name"; Ok (eq_str name hostname)) items.

(** The first resource of a request whose provider binding is labelled
    [Infrastructure Service]. *)
Definition infrastructure_resource (response : res json) : res json :=
  body ← response;
  content ← getitem body "content";
  items ← iter content;
  found ← comprehension
    (λ element,
       binding ← getitem element "providerBinding";
       ref ← getitem binding "providerRef";
       label ← getitem ref "label";
       Ok (eq_str label "Infrastructure Service")) items;
  first found.

(** The first entry of [entries] whose key is [key]. *)
Definition entry_with_key (entries : json) (key : string) : res json :=
  items ← iter entries;
  found ← comprehension
    (λ element, k ← getitem element "key"; Ok (eq_str k key)) items;
  first found.

(** [response.json()['stateName']]. *)
Definition state_name (response : res json) : res json :=
  body ← response;
  getitem body "stateName".

(** The value [get_vm_build_status] assigns to [self.build_explanation]: the
    empty string when [requestCompletion] is [None], its
    [completionDetails] otherwise. *)
Definition completion_details (response : res json) : res json :=
  body ← response;
  explanation ← getitem body "requestCompletion";
  if is_none explanation then Ok (JStr "")
  else getitem explanation "completionDetails".

(** ** The methods of [VRAHelper] and [run_module] *)

Section Module.

(** The service the run talks to and the module's invocation. *)
Variable server : list event → call → reply.
Variable p : params.
Variable check_mode : bool.

(** [requests.request(...)]: the call is recorded, then answered from the
    history before it. *)
Definition request (c : call) : M (res json) := λ w,
  let w' := {| self := self w; trace := Http c :: trace w |} in
  match server (trace w) c with
  | Refused msg => (Raise (RequestException msg), w')
  | Response body => (Ret body, w')
  end.

Definition get_auth : M unit :=
  invoke MGetAuth;;
  try_except
    (response ← request (PostTokens (vra_username p) (vra_password p) (vra_tenant p));
     token ← lift (body ← response; getitem body "id");
     update (set_authorization token))
    (λ e, fail_json ("Failed to get bearer token: " +:+ str_exn e)).

Definition get_catalog_id : M unit :=
  invoke MGetCatalogId;;
  let catalog_dict : gmap string json := ∅ in
  try_except
    (response ← request GetEntitledCatalogItems;
     catalog_dict ← lift (body ← response;
                          content ← getitem body "content";
                          items ← iter content;
                          catalog_loop items catalog_dict);
     id ← lift (getitem (JDict catalog_dict) (blueprint_name p));
     update (set_catalog_id id))
    (λ e, fail_json ("Failed to get catalog ID for blueprint "
                     +:+ blueprint_name p +:+ ": " +:+ str_exn e)).

Definition get_template_json : M unit :=
  invoke MGetTemplateJson;;
  try_except
    (id ← attr "catalog_id" catalog_id;
     response ← request (GetRequestTemplate id);
     update (set_template_json (TResponse response)))
    (λ e, fail_json ("Failed to get template JSON for creating the VM: "
                     +:+ str_exn e)).

(** No [try] here: whatever the customization raises leaves the method. *)
Definition customize_template : M unit :=
  invoke MCustomizeTemplate;;
  slot ← attr "template_json" template_json;
  document ← match slot with
             | TResponse body => lift body
             | TDict _ => raise (AttributeError "'dict' object has no attribute 'json'")
             end;
  template ← py_dict document;
  template ← lift (customize p template);
  update (set_template_json (TDict template)).

Definition create_vm_from_template : M unit :=
  invoke MCreateVmFromTemplate;;
  try_except
    (id ← attr "catalog_id" catalog_id;
     slot ← attr "template_json" template_json;
     data ← match slot with
            | TDict template => mret template
            | TResponse _ =>
                raise (TypeError "Object of type 'Response' is not JSON serializable")
            end;
     response ← request (PostRequests id data);
     id ← lift (body ← response; getitem body "id");
     update (set_request_id id))
    (λ e, fail_json ("Failed to create VM from template: " +:+ str_exn e)).

Definition get_vm : M unit :=
  invoke MGetVm;;
  try_except
    (response ← request GetVirtualResources;
     vms ← lift (matching_vms response (hostname p));
     if bool_decide (1 < length vms)%nat then
       fail_json ("Duplicate VMs with hostname " +:+ hostname p +:+ ".")
     else if bool_decide (length vms = 1%nat) then
       id ← lift (vm ← first vms; getitem vm "requestId");
       update (set_request_id id);;
       response ← request (GetRequestResources id);
       meta_dict ← lift (infrastructure_resource response);
       id ← lift (getitem meta_dict "id");
       update (set_destroy_id id);;
       vm_data ← lift (data ← getitem meta_dict "resourceData";
                       entries ← getitem data "entries";
                       entry_with_key entries "ip_address");
       address ← lift (value ← getitem vm_data "value"; getitem value "value");
       update (set_ip address)
     else mret ())
    (λ e, fail_json ("Failed to get VM details for '" +:+ hostname p +:+ "': "
                     +:+ str_exn e)).

Definition get_vm_state : M unit :=
  invoke MGetVmState;;
  try_except
    (id ← attr "request_id" request_id;
     (if is_none id
      then fail_json "No request ID to request VM state information for"
      else mret ());;
     id ← attr "destroy_id" destroy_id;
     response ← request (GetResource id);
     meta_dict ← lift (body ← response;
                       data ← getitem body "resourceData";
                       entries ← getitem data "entries";
                       entry_with_key entries "MachineStatus");
     status ← lift (value ← getitem meta_dict "value"; getitem value "value");
     update (set_state status))
    (λ e, fail_json ("Failed to get VM state information for '" +:+ hostname p
                     +:+ "': " +:+ str_exn e)).

Definition get_vm_build_status : M unit :=
  invoke MGetVmBuildStatus;;
  try_except
    (id ← attr "request_id" request_id;
     response ← request (GetRequest id);
     status ← lift (state_name response);
     update (set_build_status status);;
     details ← lift (completion_details response);
     update (set_build_explanation details))
    (λ e, fail_json ("Failed to get VM create status: " +:+ str_exn e)).

(** [VRAHelper(module)]: the constructor ends with [self.get_auth()]. *)
Definition new_helper : VRAHelper :=
  {| authorization := None; catalog_id := None; template_json := None;
     request_id := None; destroy_id := None; ip := JNull; state := None;
     build_status := None; build_explanation := None |}.

Definition seed : result :=
  {| result_changed := false; result_failed := false;
     result_state := JStr ""; result_destroy_id := JStr "";
     result_ip := JStr ""; result_hostname := JStr "" |}.

Definition with_changed (r : result) : result :=
  {| result_changed := true; result_failed := result_failed r;
     result_state := result_state r; result_destroy_id := result_destroy_id r;
     result_ip := result_ip r; result_hostname := result_hostname r |}.

(** One pass through the body of [while True] up to the [sleep]: [true] is
    [break], [false] falls through to the sleep. *)
Definition poll (timer : Z) : M bool :=
  get_vm_build_status;;
  if bool_decide (wait_timeout p ≤ timer)%Z then
    fail_json ("Failed to create VM in " +:+ str_int (wait_timeout p) +:+ " seconds")
  else
    status ← attr "build_status" build_status;
    if eq_str status "Failed" then
      explanation ← attr "build_explanation" build_explanation;
      text ← py_str explanation;
      fail_json ("Failed to create VM: " +:+ text)
    else if eq_str status "Successful" then mret true
    else mret false.

(** The polling loop (lines 387-398), at most [fuel] iterations of it. *)
Fixpoint poll_loop (fuel : nat) (timer : Z) : M unit :=
  match fuel with
  | O => out_of_fuel
  | S fuel' =>
      finished ← poll timer;
      if finished : bool then mret ()
      else sleep 15;; poll_loop fuel' (timer + 15)
  end.

Definition run_module (fuel : nat) : M unit :=
  let result := seed in
  get_auth;;
  get_vm;;
  (if check_mode then
     address ← get_ip;
     exit_json (if is_none address then with_changed result else result)
   else mret ());;
  address ← get_ip;
  result ←
    (if is_none address then
       let result := with_changed result in
       get_catalog_id;;
       get_template_json;;
       customize_template;;
       create_vm_from_template;;
       poll_loop fuel 0;;
       get_vm;;
       mret result
     else mret result);
  get_vm_state;;
  status ← attr "state" state;
  id ← attr "destroy_id" destroy_id;
  address ← get_ip;
  exit_json
    {| result_changed := result_changed result; result_failed := result_failed result;
       result_state := status; result_destroy_id := id;
       result_ip := address; result_hostname := JStr (hostname p) |}.

(** A run from the fresh helper and the empty trace. *)
Definition run (fuel : nat) : outcome unit * world :=
  run_module fuel {| self := new_helper; trace := [] |}.

End Module.

(** ** A scripted service and a sample invocation, for the examples *)

(** Replies by endpoint.  The inventory reply depends on whether a creation
    request has been posted, the build status on the number of earlier
    status requests. *)
Record script := {
  on_tokens : reply;
  on_catalog : reply;
  on_template : reply;
  on_create : reply;
  on_inventory : bool → reply;
  on_resources : reply;
  on_resource : reply;
  on_build : nat → reply
}.

Definition is_create (ev : event) : bool :=
  match ev with
  | Http (PostRequests _ _) => true
  | _ => false
  end.

Definition is_status_request (ev : event) : bool :=
  match ev with
  | Http (GetRequest _) => true
  | _ => false
  end.

Definition scripted (s : script) (history : list event) (c : call) : reply :=
  match c with
  | PostTokens _ _ _ => on_tokens s
  | GetEntitledCatalogItems => on_catalog s
  | GetRequestTemplate _ => on_template s
  | PostRequests _ _ => on_create s
  | GetVirtualResources => on_inventory s (existsb is_create history)
  | GetRequestResources _ => on_resources s
  | GetResource _ => on_resource s
  | GetRequest _ => on_build s (length (filter (λ ev, is_status_request ev = true) history))
  end.

(** A JSON object from its members. *)
Definition obj (members : list (string * json)) : json := JDict (list_to_map members).

Definition ok (j : json) : reply := Response (Ok j).

Definition sample_disk_request (size_gb : Z) (mount_point : string) : json :=
  obj [("size_gb", JInt size_gb); ("mount_point", JStr mount_point)].

Definition sample_params : params :=
  {| blueprint_instance_id := "Linux_Machine_1"; blueprint_name := "Linux";
     cpu := 2; extra_disks := [sample_disk_request 60 "/mnt1"; sample_disk_request 80 "/mnt2"];
     hostname := "web01"; memory := 4096; network_adapter := "vlan10";
     vra_hostname := "vra.example.org"; vra_password := "secret";
     vra_tenant := "vsphere.local"; vra_username := "automation"; wait_timeout := 300 |}.

Definition sample_base_data : gmap string json :=
  list_to_map [("capacity", JInt 40); ("id", JInt 1000); ("label", JStr "Hard disk 1");
               ("volumeId", JInt 0); ("userCreated", JBool false); ("is_clone", JBool true);
               ("initial_location", JStr ""); ("custom_properties", JNull)].

Definition sample_base : gmap string json :=
  list_to_map [("componentTypeId", JStr "com.vmware.csp.iaas.blueprint.service");
               ("classId", JStr "Infrastructure.Compute.Machine.MachineDisk");
               ("data", JDict sample_base_data)].

Definition sample_template : gmap string json :=
  list_to_map
    [("type", JStr "com.vmware.vcac.catalog.domain.request.CatalogItemProvisioningRequest");
     ("data", obj [("Linux_Machine_1",
                    obj [("data", obj [("cpu", JInt 1); ("memory", JInt 1024);
                                       ("disks", JList [JDict sample_base])])])])].

Definition sample_catalog : json :=
  obj [("content", JList [obj [("catalogItem", obj [("name", JStr "Windows"); ("id", JStr "cat-1")])];
                          obj [("catalogItem", obj [("name", JStr "Linux"); ("id", JStr "cat-2")])]])].

Definition sample_vm : json := obj [("name", JStr "web01"); ("requestId", JStr "req-7")].

Definition sample_inventory (vms : list json) : json := obj [("content", JList vms)].

Definition sample_entry (key : string) (value : json) : json :=
  obj [("key", JStr key); ("value", obj [("type", JStr "string"); ("value", value)])].

(** The resource bound to the infrastructure service, with its entries. *)
Definition sample_infrastructure (entries : list json) : json :=
  obj [("id", JStr "res-9");
       ("providerBinding", obj [("providerRef", obj [("label", JStr "Infrastructure Service")])]);
       ("resourceData", obj [("entries", JList entries)])].

Definition sample_resources (entries : list json) : json :=
  obj [("content",
        JList [obj [("id", JStr "dep-1");
                    ("providerBinding", obj [("providerRef", obj [("label", JStr "Blueprint Service")])])];
               sample_infrastructure entries])].

Definition sample_resource : json :=
  obj [("resourceData", obj [("entries", JList [sample_entry "MachineStatus" (JStr "On")])])].

Definition sample_build (state : string) (completion : json) : json :=
  obj [("stateName", JStr state); ("requestCompletion", completion)].

(** The VM is absent until it is created; the build is in progress for the
    first two polls and successful at the third. *)
Definition sample_script : script :=
  {| on_tokens := ok (obj [("id", JStr "token-1")]);
     on_catalog := ok sample_catalog;
     on_template := ok (JDict sample_template);
     on_create := ok (obj [("id", JStr "req-7")]);
     on_inventory := λ created,
       ok (sample_inventory (if created then [sample_vm] else []));
     on_resources := ok (sample_resources [sample_entry "ip_address" (JStr "10.0.0.5")]);
     on_resource := ok sample_resource;
     on_build := λ n,
       ok (if bool_decide (n < 2)%nat then sample_build "In Progress" JNull
           else sample_build "Successful"
                  (obj [("completionDetails", JStr "Request succeeded.")])) |}.

(** A helper that has just fetched the sample template. *)
Definition sample_fetched : world :=
  {| self := set_template_json (TResponse (Ok (JDict sample_template))) new_helper;
     trace := [Invoke MGetTemplateJson] |}.

(** ** Specification-side notions for template customization *)

(** [template['data'][blueprint_instance_id]['data']['disks']]. *)
Definition disks_of (p : params) (template : json) : res json :=
  data ← getitem template "data";
  instance ← getitem data (blueprint_instance_id p);
  metadata ← getitem instance "data";
  getitem metadata "disks".

(** The value read at [e[k]], for a disk request that has the key. *)
Definition field (e : json) (k : string) : json :=
  match getitem e k with
  | Ok v => v
  | Err _ => JNull
  end.

(** The specification's extra disk number [k] (counting from 1): the base
    disk with seven entries of its ['data'] overridden. *)
Definition spec_disk (base base_data : gmap string json) (base_id : Z) (k : nat)
    (size_gb mount_point : json) : json :=
  JDict (<["data" :=
    JDict (<["initial_location" := mount_point]>
          (<["is_clone" := JStr "false"]>
          (<["userCreated" := JStr "true"]>
          (<["id" := JInt (base_id + Z.of_nat k)]>
          (<["volumeId" := JInt (Z.of_nat k)]>
          (<["label" := JStr ("Hard disk " +:+ str_int (Z.of_nat k + 1))]>
          (<["capacity" := size_gb]> base_data)))))))]> base).

(** The specification's disks for the requests [extra], the first of which
    is extra disk number [S i]. *)
Fixpoint spec_disks (base base_data : gmap string json) (base_id : Z) (i : nat)
    (extra : list json) : list json :=
  match extra with
  | [] => []
  | e :: extra' =>
      spec_disk base base_data base_id (S i) (field e "size_gb") (field e "mount_point")
      :: spec_disks base base_data base_id (S i) extra'
  end.

(** A disk request the loop can serve: it has both keys. *)
Definition disk_request (e : json) : Prop :=
  ∃ size_gb mount_point,
    getitem e "size_gb" = Ok size_gb ∧ getitem e "mount_point" = Ok mount_point.

(** The keys of a disk's ['data'] that the loop assigns. *)
Definition overridden : list string :=
  ["capacity"; "label"; "volumeId"; "id"; "userCreated"; "is_clone"; "initial_location"].

(** [disk] is a copy of the base disk in which ['data'] differs from the
    base's exactly at the overridden keys, which hold the values the claim
    gives for extra disk number [k]. *)
Definition extra_disk_of (base base_data : gmap string json) (base_id : Z) (k : nat)
    (size_gb mount_point disk : json) : Prop :=
  ∃ d data : gmap string json,
    disk = JDict d ∧
    d !! "data" = Some (JDict data) ∧
    (∀ key, key ≠ "data" → d !! key = base !! key) ∧
    data !! "capacity" = Some size_gb ∧
    data !! "label" = Some (JStr ("Hard disk " +:+ str_int (Z.of_nat k + 1))) ∧
    data !! "volumeId" = Some (JInt (Z.of_nat k)) ∧
    data !! "id" = Some (JInt (base_id + Z.of_nat k)) ∧
    data !! "userCreated" = Some (JStr "true") ∧
    data !! "is_clone" = Some (JStr "false") ∧
    data !! "initial_location" = Some mount_point ∧
    (∀ key, key ∉ overridden → data !! key = base_data !! key).

(** A template with exactly one disk, the base disk, whose id is an integer. *)
Definition single_disk_template (p : params) (template base base_data : gmap string json)
    (base_id : Z) : Prop :=
  disks_of p (JDict template) = Ok (JList [JDict base]) ∧
  base !! "data" = Some (JDict base_data) ∧
  base_data !! "id" = Some (JInt base_id).

(** ** Specification-side notions for the inventory lookup *)

(** What a request hands to the code that parses it: the parsed body, or the
    exception of the request or of [.json()]. *)
Definition received (r : reply) : res json :=
  match r with
  | Refused msg => Err (RequestException msg)
  | Response body => body
  end.

Definition auth_call (p : params) : call :=
  PostTokens (vra_username p) (vra_password p) (vra_tenant p).

(** The trace once the constructor has authenticated. *)
Definition authenticated (p : params) : list event :=
  [Http (auth_call p); Invoke MGetAuth].

(** The bearer token the service hands out at the start of a run. *)
Definition token (server : list event → call → reply) (p : params) : res json :=
  body ← received (server [Invoke MGetAuth] (auth_call p));
  getitem body "id".

(** The resources of the inventory listing that match the hostname, at the
    lookup that follows a successful authentication. *)
Definition first_lookup (server : list event → call → reply) (p : params)
    : res (list json) :=
  _ ← token server p;
  match server (Invoke MGetVm :: authenticated p) GetVirtualResources with
  | Refused msg => Err (RequestException msg)
  | Response response => matching_vms response (hostname p)
  end.

(** The first two steps of [run_module]: construct the helper, look the
    hostname up. *)
Definition looked_up (server : list event → call → reply) (p : params)
    : outcome unit * world :=
  (get_auth server p;; get_vm server p) {| self := new_helper; trace := [] |}.

(** The events of the creation path: entering one of the four creation
    methods, or one of their three requests. *)
Definition creation_event (ev : event) : bool :=
  match ev with
  | Invoke (MGetCatalogId | MGetTemplateJson | MCustomizeTemplate | MCreateVmFromTemplate)
  | Http (GetEntitledCatalogItems | GetRequestTemplate _ | PostRequests _ _) => true
  | _ => false
  end.

(** The events of the state lookup. *)
Definition state_event (ev : event) : bool :=
  match ev with
  | Invoke MGetVmState | Http (GetResource _) => true
  | _ => false
  end.

(** The resource [meta_dict] has resource data whose entries can be scanned
    and none of them has the key [ip_address]. *)
Definition no_address_entry (meta_dict : json) : Prop :=
  ∃ (data entries : json) (items : list json),
    getitem meta_dict "resourceData" = Ok data ∧
    getitem data "entries" = Ok entries ∧
    iter entries = Ok items ∧
    Forall (λ element, ∃ k, getitem element "key" = Ok k ∧ eq_str k "ip_address" = false)
           items.

(** The VM exists from the start; the scripts below differ in what the
    service reports about its address. *)
Definition existing_script (entries : list json) : script :=
  {| on_tokens := on_tokens sample_script;
     on_catalog := on_catalog sample_script;
     on_template := on_template sample_script;
     on_create := on_create sample_script;
     on_inventory := λ _, ok (sample_inventory [sample_vm]);
     on_resources := ok (sample_resources entries);
     on_resource := on_resource sample_script;
     on_build := on_build sample_script |}.

Definition with_address : script :=
  existing_script [sample_entry "MachineName" (JStr "web01");
                   sample_entry "ip_address" (JStr "10.0.0.5")].

Definition null_address : script :=
  existing_script [sample_entry "MachineName" (JStr "web01");
                   sample_entry "ip_address" JNull].

Definition without_address : script :=
  existing_script [sample_entry "MachineName" (JStr "web01")].

(** Two resources carry the requested hostname. *)
Definition duplicated : script :=
  {| on_tokens := on_tokens sample_script;
     on_catalog := on_catalog sample_script;
     on_template := on_template sample_script;
     on_create := on_create sample_script;
     on_inventory := λ _,
       ok (sample_inventory [sample_vm; obj [("name", JStr "db01"); ("requestId", JStr "req-8")];
                             obj [("name", JStr "web01"); ("requestId", JStr "req-9")]]);
     on_resources := on_resources sample_script;
     on_resource := on_resource sample_script;
     on_build := on_build sample_script |}.

(** ** Outcomes and trace growth of a computation *)

(** An outcome a [try]/[except Exception] with a failing handler can leave:
    normal return or [fail_json]. *)
Definition settled {A} (o : outcome A) : Prop :=
  match o with
  | Ret _ | FailJson _ => True
  | _ => False
  end.

(** An outcome of code that neither exits successfully, nor leaves the
    embedding, nor loops. *)
Definition mild {A} (o : outcome A) : Prop :=
  match o with
  | Ret _ | Raise _ | FailJson _ => True
  | _ => False
  end.

(** [w'] extends the trace of [w] by events that all satisfy [P]. *)
Definition adds (P : event → bool) (w w' : world) : Prop :=
  ∃ new, trace w' = new ++ trace w ∧ forallb P new = true.

Definition mild_on {A} (P : event → bool) (m : M A) : Prop :=
  ∀ w, mild (fst (m w)) ∧ adds P w (snd (m w)).

Definition settled_on {A} (P : event → bool) (m : M A) : Prop :=
  ∀ w, settled (fst (m w)) ∧ adds P w (snd (m w)).

(** The helper once the constructor has authenticated against the sample
    service. *)
Definition sample_authenticated : world :=
  {| self := set_authorization (JStr "token-1") new_helper;
     trace := authenticated sample_params |}.

(** ** Specification-side notions for the catalog lookup *)

(** [item] is a listing element for the catalog entry [(name, id)]. *)
Definition catalog_entry (item : json) (entry : string * json) : Prop :=
  ∃ catalog_item,
    getitem item "catalogItem" = Ok catalog_item ∧
    getitem catalog_item "name" = Ok (JStr entry.1) ∧
    getitem catalog_item "id" = Ok entry.2.

(** The specification's choice: the id of the last entry, in listing order,
    whose name is exactly [name]; none when no entry has that name. *)
Definition spec_catalog_id (entries : list (string * json)) (name : string) : option json :=
  snd <$> last (filter (λ entry, entry.1 = name) entries).

Definition sample_catalog_item (name id : string) : json :=
  obj [("catalogItem", obj [("name", JStr name); ("id", JStr id)])].

(** A listing in which two entries are named [Linux]. *)
Definition ambiguous_catalog : json :=
  obj [("content", JList [sample_catalog_item "Linux" "cat-1";
                          sample_catalog_item "Windows" "cat-2";
                          sample_catalog_item "Linux" "cat-3";
                          sample_catalog_item "linux" "cat-4"])].

Definition with_catalog (catalog : reply) : script :=
  {| on_tokens := on_tokens sample_script;
     on_catalog := catalog;
     on_template := on_template sample_script;
     on_create := on_create sample_script;
     on_inventory := on_inventory sample_script;
     on_resources := on_resources sample_script;
     on_resource := on_resource sample_script;
     on_build := on_build sample_script |}.

(** The sample service with another reply to the template request. *)
Definition with_template (template : reply) : script :=
  {| on_tokens := on_tokens sample_script;
     on_catalog := on_catalog sample_script;
     on_template := template;
     on_create := on_create sample_script;
     on_inventory := on_inventory sample_script;
     on_resources := on_resources sample_script;
     on_resource := on_resource sample_script;
     on_build := on_build sample_script |}.

(** ** Specification-side notions for the polling loop *)

(** The trace after [k] full iterations of the loop started at trace [t0]:
    each iteration enters [get_vm_build_status], requests the status and
    sleeps 15 seconds. *)
Fixpoint polled (id : json) (k : nat) (t0 : list event) : list event :=
  match k with
  | O => t0
  | S k' => Sleep 15 :: Http (GetRequest id) :: Invoke MGetVmBuildStatus :: polled id k' t0
  end.

(** What a status request issued after [history] brings back: the build
    status and the explanation, or the exception of the request or of the
    parsing. *)
Definition fetch (server : list event → call → reply) (id : json) (history : list event)
    : res (json * json) :=
  match server history (GetRequest id) with
  | Refused msg => Err (RequestException msg)
  | Response response =>
      status ← state_name response;
      details ← completion_details response;
      Ok (status, details)
  end.

(** The status and explanation fetched at poll number [k] (from 0), when
    elapsed time is [15 * k]. *)
Definition fetched (server : list event → call → reply) (id : json) (t0 : list event)
    (k : nat) : res (json * json) :=
  fetch server id (Invoke MGetVmBuildStatus :: polled id k t0).

(** A status that is neither [Failed] nor [Successful]. *)
Definition in_progress (status : json) : bool :=
  negb (eq_str status "Failed") && negb (eq_str status "Successful").

(** Poll [k] happens before the timeout and finds the request in progress. *)
Definition pending (server : list event → call → reply) (p : params) (id : json)
    (t0 : list event) (k : nat) : Prop :=
  15 * Z.of_nat k < wait_timeout p ∧
  ∃ status details, fetched server id t0 k = Ok (status, details) ∧ in_progress status = true.

(** The loop is about to run poll number [k]. *)
Definition polling (id : json) (t0 : list event) (k : nat) (w : world) : Prop :=
  request_id (self w) = Some id ∧ trace w = polled id k t0.

Definition timeout_message (p : params) : string :=
  "Failed to create VM in " +:+ str_int (wait_timeout p) +:+ " seconds".

(** A number of iterations the loop cannot exceed: one per started interval
    of 15 seconds before the timeout, and one more. *)
Definition polls (p : params) : nat := S (Z.to_nat ((wait_timeout p + 14) / 15)).

(** A helper that has just posted the creation request [req-7]. *)
Definition sample_created : world :=
  {| self := set_request_id (JStr "req-7") (self sample_authenticated);
     trace := Http (PostRequests (JStr "cat-2") (JDict sample_template))
              :: Invoke MCreateVmFromTemplate :: trace sample_authenticated |}.

(** The sample service with another course of the build. *)
Definition with_build (build : nat → reply) : script :=
  {| on_tokens := on_tokens sample_script;
     on_catalog := on_catalog sample_script;
     on_template := on_template sample_script;
     on_create := on_create sample_script;
     on_inventory := on_inventory sample_script;
     on_resources := on_resources sample_script;
     on_resource := on_resource sample_script;
     on_build := build |}.

(** The sample invocation with another timeout. *)
Definition sample_with_timeout (seconds : Z) : params :=
  {| blueprint_instance_id := blueprint_instance_id sample_params;
     blueprint_name := blueprint_name sample_params;
     cpu := cpu sample_params; extra_disks := extra_disks sample_params;
     hostname := hostname sample_params; memory := memory sample_params;
     network_adapter := network_adapter sample_params;
     vra_hostname := vra_hostname sample_params;
     vra_password := vra_password sample_params;
     vra_tenant := vra_tenant sample_params;
     vra_username := vra_username sample_params; wait_timeout := seconds |}.

(** A build that never leaves [In Progress]. *)
Definition stalled (n : nat) : reply := ok (sample_build "In Progress" JNull).

(** A build that is rejected at the second poll. *)
Definition rejected (n : nat) : reply :=
  ok (if bool_decide (n < 1)%nat then sample_build "In Progress" JNull
      else sample_build "Failed" (obj [("completionDetails", JStr "Insufficient capacity")])).

(** A build that is already successful at the first poll. *)
Definition instant (n : nat) : reply :=
  ok (sample_build "Successful" (obj [("completionDetails", JStr "Request succeeded.")])).

(** ** Further specification-side notions *)

(** [template['data'][blueprint_instance_id]['data']]. *)
Definition metadata_of (p : params) (template : json) : res json :=
  data ← getitem template "data";
  instance ← getitem data (blueprint_instance_id p);
  getitem instance "data".

(** The keys of the metadata that [customize_template] assigns. *)
Definition assigned : list string :=
  ["cpu"; "memory"; "Hostname"; "VirtualMachine.Network0.Name"; "disks"].

(** The customized sample template. *)
Definition sample_customized : json :=
  match customize sample_params sample_template with
  | Ok template => template
  | Err _ => JNull
  end.

(** A second disk that the sample blueprint could already carry. *)
Definition sample_second_disk : json :=
  obj [("componentTypeId", JStr "com.vmware.csp.iaas.blueprint.service");
       ("data", obj [("capacity", JInt 100); ("id", JInt 1001);
                     ("label", JStr "Hard disk 2"); ("volumeId", JInt 1)])].

Definition sample_two_disk_template : gmap string json :=
  list_to_map
    [("data", obj [("Linux_Machine_1",
                    obj [("data", obj [("cpu", JInt 1);
                                       ("disks", JList [JDict sample_base;
                                                        sample_second_disk])])])])].

(** The sample invocation without extra disks. *)
Definition sample_without_disks : params :=
  {| blueprint_instance_id := blueprint_instance_id sample_params;
     blueprint_name := blueprint_name sample_params;
     cpu := cpu sample_params; extra_disks := [];
     hostname := hostname sample_params; memory := memory sample_params;
     network_adapter := network_adapter sample_params;
     vra_hostname := vra_hostname sample_params;
     vra_password := vra_password sample_params;
     vra_tenant := vra_tenant sample_params;
     vra_username := vra_username sample_params;
     wait_timeout := wait_timeout sample_params |}.

(** A template whose machine has no disk list at all. *)
Definition sample_diskless_template : gmap string json :=
  list_to_map [("data", obj [("Linux_Machine_1", obj [("data", obj [("cpu", JInt 1)])])])].

(** A request list whose second request has no mount point. *)
Definition sample_broken_requests : params :=
  {| blueprint_instance_id := blueprint_instance_id sample_params;
     blueprint_name := blueprint_name sample_params;
     cpu := cpu sample_params;
     extra_disks := [sample_disk_request 60 "/mnt1"; obj [("size_gb", JInt 80)];
                     sample_disk_request 20 "/mnt3"];
     hostname := hostname sample_params; memory := memory sample_params;
     network_adapter := network_adapter sample_params;
     vra_hostname := vra_hostname sample_params;
     vra_password := vra_password sample_params;
     vra_tenant := vra_tenant sample_params;
     vra_username := vra_username sample_params;
     wait_timeout := wait_timeout sample_params |}.

(** Whether the resource [i] carries the name [hostname]: its ['name'] is
    that very string. *)
Definition named (hostname : string) (i : json) : bool :=
  match getitem i "name" with
  | Ok name => eq_str name hostname
  | Err _ => false
  end.

(** The sample service with another reply to the token request. *)
Definition with_tokens (tokens : reply) : script :=
  {| on_tokens := tokens;
     on_catalog := on_catalog sample_script;
     on_template := on_template sample_script;
     on_create := on_create sample_script;
     on_inventory := on_inventory sample_script;
     on_resources := on_resources sample_script;
     on_resource := on_resource sample_script;
     on_build := on_build sample_script |}.

(** The sample service with another inventory listing. *)
Definition with_inventory (inventory : reply) : script :=
  {| on_tokens := on_tokens sample_script;
     on_catalog := on_catalog sample_script;
     on_template := on_template sample_script;
     on_create := on_create sample_script;
     on_inventory := λ _, inventory;
     on_resources := on_resources sample_script;
     on_resource := on_resource sample_script;
     on_build := on_build sample_script |}.

(** A helper that has created a machine which the second lookup did not
    find: it holds a request id but no destroy id. *)
Definition sample_vanished : world :=
  {| self := self sample_created;
     trace := Http GetVirtualResources :: Invoke MGetVm :: trace sample_created |}.

(** [m] extends the trace by events that all satisfy [P], however it ends. *)
Definition grows {A} (P : event → bool) (m : M A) : Prop :=
  ∀ w, adds P w (snd (m w)).

(** The events of the polling loop: entering [get_vm_build_status], a status
    request, a sleep of 15 seconds. *)
Definition polling_event (ev : event) : bool :=
  match ev with
  | Invoke MGetVmBuildStatus | Http (GetRequest _) => true
  | Sleep seconds => bool_decide (seconds = 15)
  | _ => false
  end.

(** The seconds slept in a trace. *)
Fixpoint slept (t : list event) : Z :=
  match t with
  | [] => 0
  | Sleep seconds :: t' => seconds + slept t'
  | _ :: t' => slept t'
  end.

(** No exception leaves [m] except one raised while the last thing entered
    was [customize_template]. *)
Definition confined {A} (m : M A) : Prop :=
  ∀ w e w', m w = (Raise e, w') → ∃ t, trace w' = Invoke MCustomizeTemplate :: t.

(** A helper that has resolved the catalog id and fetched the sample
    template. *)
Definition sample_ready : world :=
  {| self := set_template_json (TResponse (Ok (JDict sample_template)))
               (set_catalog_id (JStr "cat-2") (self sample_authenticated));
     trace := Http (GetRequestTemplate (JStr "cat-2")) :: Invoke MGetTemplateJson
              :: trace sample_authenticated |}.

(** The sample service with another answer to the creation request. *)
Definition with_create (create : reply) : script :=
  {| on_tokens := on_tokens sample_script;
     on_catalog := on_catalog sample_script;
     on_template := on_template sample_script;
     on_create := create;
     on_inventory := on_inventory sample_script;
     on_resources := on_resources sample_script;
     on_resource := on_resource sample_script;
     on_build := on_build sample_script |}.

(** A build whose status request is refused at the second poll. *)
Definition interrupted (n : nat) : reply :=
  if bool_decide (n < 1)%nat then ok (sample_build "In Progress" JNull)
  else Refused "connection reset".

(** * Properties *)

(** ** Template customization: the extra disks *)

Lemma setitem2_dict (m inner : gmap string json) (k1 k2 : string) (v : json) :
  m !! k1 = Some (JDict inner) →
  setitem2 (JDict m) k1 k2 v = Ok (JDict (<[k1 := JDict (<[k2 := v]> inner)]> m)).
Proof. intros H. unfold setitem2. simpl. by rewrite H. Qed.

Lemma spec_disk_is_extra_disk base base_data base_id k size_gb mount_point :
  extra_disk_of base base_data base_id k size_gb mount_point
    (spec_disk base base_data base_id k size_gb mount_point).
Proof.
  unfold extra_disk_of, spec_disk. eexists _, _.
  split; [reflexivity|]. split; [by rewrite lookup_insert_eq|].
  split; [by intros key Hkey; rewrite lookup_insert_ne|].
  repeat split; try by simplify_map_eq.
  intros key Hkey. unfold overridden in Hkey.
  rewrite !lookup_insert_ne; [done|..]; intros <-; apply Hkey; set_solver.
Qed.

Lemma add_disks_spec (base base_data : gmap string json) (base_id : Z) (extra : list json) :
  base !! "data" = Some (JDict base_data) →
  Forall disk_request extra →
  ∀ (i : nat) (metadata : gmap string json) (disks : list json),
    metadata !! "disks" = Some (JList disks) →
    add_disks (JDict base) extra i (JInt (base_id + Z.of_nat i)) (JDict metadata)
    = Ok (JDict (<["disks" :=
            JList (disks ++ spec_disks base base_data base_id i extra)]> metadata)).
Proof.
  intros Hbase Hextra. induction Hextra as [|e extra He _ IH]; intros i metadata disks Hdisks.
  - simpl. rewrite app_nil_r, insert_id; done.
  - destruct He as (size_gb & mount_point & Hsize & Hmount).
    cbn [add_disks add1 mbind res_bind]. rewrite Hsize, Hmount. cbn [mbind res_bind].
    rewrite (setitem2_dict _ base_data) by done. cbn [mbind res_bind].
    do 6 (erewrite setitem2_dict by apply lookup_insert_eq; cbn [mbind res_bind]).
    rewrite !insert_insert_eq.
    cbn [getitem]. rewrite Hdisks. cbn [mbind res_bind append setitem].
    replace (base_id + Z.of_nat i + 1) with (base_id + Z.of_nat (S i)) by lia.
    rewrite IH with (disks := disks ++ _) by apply lookup_insert_eq.
    rewrite insert_insert_eq, <- app_assoc. cbn [app spec_disks].
    unfold spec_disk, field. rewrite Hsize, Hmount.
    replace (Z.of_nat i + 2) with (Z.of_nat (S i) + 1) by lia.
    replace (Z.of_nat i + 1) with (Z.of_nat (S i)) by lia.
    reflexivity.
Qed.

Lemma spec_disks_length base base_data base_id i extra :
  length (spec_disks base base_data base_id i extra) = length extra.
Proof. revert i. induction extra as [|e extra IH]; intros i; simpl; [done|]. by rewrite IH. Qed.

Lemma spec_disks_lookup base base_data base_id extra :
  ∀ (i j : nat) (e : json),
    extra !! j = Some e →
    spec_disks base base_data base_id i extra !! j
    = Some (spec_disk base base_data base_id (S (i + j))
              (field e "size_gb") (field e "mount_point")).
Proof.
  induction extra as [|e' extra IH]; intros i j e Hj; [done|].
  destruct j as [|j]; simpl in *.
  - injection Hj as ->. by rewrite Nat.add_0_r.
  - rewrite (IH (S i) j e Hj). do 3 f_equal. lia.
Qed.

Lemma getitem_ok_inv (j : json) (k : string) (v : json) :
  getitem j k = Ok v → ∃ m : gmap string json, j = JDict m ∧ m !! k = Some v.
Proof.
  destruct j as [| | | | |m]; simpl; try discriminate.
  destruct (m !! k) as [v'|] eqn:Hk; [|discriminate].
  intros [= ->]. eauto.
Qed.

Lemma res_bind_ok_inv {A B} (r : res A) (f : A → res B) (b : B) :
  r ≫= f = Ok b → ∃ a, r = Ok a ∧ f a = Ok b.
Proof. destruct r as [a|e]; simpl; [eauto|discriminate]. Qed.

Lemma disks_of_inv (p : params) (template : gmap string json) (disks : json) :
  disks_of p (JDict template) = Ok disks →
  ∃ data instance metadata : gmap string json,
    template !! "data" = Some (JDict data) ∧
    data !! blueprint_instance_id p = Some (JDict instance) ∧
    instance !! "data" = Some (JDict metadata) ∧
    metadata !! "disks" = Some disks.
Proof.
  unfold disks_of. intros H.
  apply res_bind_ok_inv in H as (j1 & H1 & H).
  apply res_bind_ok_inv in H as (j2 & H2 & H).
  apply res_bind_ok_inv in H as (j3 & H3 & H).
  apply getitem_ok_inv in H1 as (m0 & [= <-] & H1).
  apply getitem_ok_inv in H2 as (data & -> & H2).
  apply getitem_ok_inv in H3 as (instance & -> & H3).
  apply getitem_ok_inv in H as (metadata & -> & H).
  eauto 10.
Qed.

Lemma customize_disks (p : params) (template base base_data : gmap string json)
    (base_id : Z) :
  single_disk_template p template base base_data base_id →
  Forall disk_request (extra_disks p) →
  ∃ template' : json,
    customize p template = Ok template' ∧
    disks_of p template'
    = Ok (JList (JDict base :: spec_disks base base_data base_id 0 (extra_disks p))).
Proof.
  intros (Hdisks & Hbase & Hid) Hextra.
  apply disks_of_inv in Hdisks as (data & instance & metadata & H1 & H2 & H3 & H4).
  unfold customize. cbn [getitem mbind res_bind setitem].
  rewrite H1. cbn [mbind res_bind getitem]. rewrite H2. cbn [mbind res_bind getitem].
  rewrite H3. cbn [mbind res_bind setitem].
  set (metadata4 :=
         <["VirtualMachine.Network0.Name" := JStr (network_adapter p)]>
           (<["Hostname" := JStr (hostname p)]>
              (<["memory" := JInt (memory p)]> (<["cpu" := JInt (cpu p)]> metadata)))).
  assert (Hm4 : metadata4 !! "disks" = Some (JList [JDict base])).
  { subst metadata4. by rewrite !lookup_insert_ne. }
  case_bool_decide as Hlen.
  - cbn [getitem]. rewrite Hm4. cbn [mbind res_bind getitem0 getitem]. rewrite Hbase.
    cbn [mbind res_bind getitem]. rewrite Hid. cbn [mbind res_bind].
    pose proof (add_disks_spec base base_data base_id (extra_disks p) Hbase Hextra
                  0%nat metadata4 [JDict base] Hm4) as Hadd.
    change (Z.of_nat 0) with 0 in Hadd. rewrite Z.add_0_r in Hadd. rewrite Hadd.
    cbn [mbind res_bind]. eexists. split; [reflexivity|].
    unfold disks_of. cbn [getitem mbind res_bind].
    by repeat (rewrite lookup_insert_eq; cbn [getitem mbind res_bind]).
  - destruct (extra_disks p) as [|e extra]; [|simpl in Hlen; lia].
    cbn [mbind res_bind spec_disks]. eexists. split; [reflexivity|].
    unfold disks_of. cbn [getitem mbind res_bind].
    repeat (rewrite lookup_insert_eq; cbn [getitem mbind res_bind]).
    by rewrite Hm4.
Qed.

(** C1: with [N] extra disk requests, each having a [size_gb] and a
    [mount_point], and a template whose disk list is the base disk alone,
    [customize_template] returns normally and stores a template whose disk
    list has length [N+1], keeps the base disk at index 0 as it was, and has at
    each index [k] from 1 to [N] a copy of the base disk whose data carries
    the capacity and the initial location of request [k], the label
    [Hard disk k+1], volume id [k], id [base_id + k], [userCreated] true
    and [is_clone] false, and agrees with the base disk's data elsewhere. *)
Theorem customize_template_appends_disks (p : params) (w : world)
    (template base base_data : gmap string json) (base_id : Z) :
  template_json (self w) = Some (TResponse (Ok (JDict template))) →
  single_disk_template p template base base_data base_id →
  Forall disk_request (extra_disks p) →
  ∃ (template' : json) (disks : list json),
    customize_template p w
    = (Ret (), {| self := set_template_json (TDict template') (self w);
                  trace := Invoke MCustomizeTemplate :: trace w |}) ∧
    disks_of p template' = Ok (JList disks) ∧
    length disks = S (length (extra_disks p)) ∧
    disks !! 0%nat = Some (JDict base) ∧
    ∀ k : nat, (1 ≤ k ≤ length (extra_disks p))%nat →
      ∃ e size_gb mount_point disk,
        extra_disks p !! (k - 1)%nat = Some e ∧
        getitem e "size_gb" = Ok size_gb ∧
        getitem e "mount_point" = Ok mount_point ∧
        disks !! k = Some disk ∧
        extra_disk_of base base_data base_id k size_gb mount_point disk.
Proof.
  intros Hslot Htemplate Hextra.
  destruct (customize_disks p template base base_data base_id Htemplate Hextra)
    as (template' & Hcustomize & Hdisks).
  exists template', (JDict base :: spec_disks base base_data base_id 0 (extra_disks p)).
  split.
  { unfold customize_template, invoke, record, attr, update, mbind, M_bind. simpl.
    rewrite Hslot. simpl. rewrite Hcustomize. reflexivity. }
  split; [done|]. split; [by simpl; rewrite spec_disks_length|]. split; [done|].
  intros k [Hk1 Hk2].
  destruct (lookup_lt_is_Some_2 (extra_disks p) (k - 1)) as [e He]; [lia|].
  pose proof (proj1 (Forall_lookup _ _) Hextra _ _ He) as (size_gb & mount_point & Hs & Hm).
  exists e, size_gb, mount_point. eexists. split; [done|]. split; [done|]. split; [done|].
  destruct k as [|k]; [lia|]. simpl in He |- *. rewrite Nat.sub_0_r in He.
  split; [by apply spec_disks_lookup|].
  unfold field. rewrite Hs, Hm. apply spec_disk_is_extra_disk.
Qed.

Lemma customize_template_appends_disks_witness :
  template_json (self sample_fetched) = Some (TResponse (Ok (JDict sample_template))) ∧
  single_disk_template sample_params sample_template sample_base sample_base_data 1000 ∧
  Forall disk_request (extra_disks sample_params) ∧
  ∃ (template' : json) (disks : list json),
    customize_template sample_params sample_fetched
    = (Ret (), {| self := set_template_json (TDict template') (self sample_fetched);
                  trace := Invoke MCustomizeTemplate :: trace sample_fetched |}) ∧
    disks_of sample_params template' = Ok (JList disks) ∧
    length disks = 3%nat ∧
    disks !! 0%nat = Some (JDict sample_base) ∧
    ∀ k : nat, (1 ≤ k ≤ 2)%nat →
      ∃ e size_gb mount_point disk,
        extra_disks sample_params !! (k - 1)%nat = Some e ∧
        getitem e "size_gb" = Ok size_gb ∧
        getitem e "mount_point" = Ok mount_point ∧
        disks !! k = Some disk ∧
        extra_disk_of sample_base sample_base_data 1000 k size_gb mount_point disk.
Proof.
  assert (H1 : template_json (self sample_fetched)
               = Some (TResponse (Ok (JDict sample_template)))) by reflexivity.
  assert (H2 : single_disk_template sample_params sample_template sample_base
                 sample_base_data 1000).
  { split; [vm_compute; reflexivity|]. split; vm_compute; reflexivity. }
  assert (H3 : Forall disk_request (extra_disks sample_params)).
  { repeat constructor; eexists _, _; split; vm_compute; reflexivity. }
  split; [exact H1|]. split; [exact H2|]. split; [exact H3|].
  exact (customize_template_appends_disks sample_params sample_fetched sample_template
           sample_base sample_base_data 1000 H1 H2 H3).
Defined.

(** ** Running methods symbolically *)

Ltac exec :=
  cbv [mbind M_bind mret M_ret res_bind res_ret try_except request invoke record sleep
       update attr lift raise fail_json exit_json unmodelled out_of_fuel get_ip
       self trace received] in *.

Lemma get_auth_ok server p tok :
  token server p = Ok tok →
  get_auth server p {| self := new_helper; trace := [] |}
  = (Ret (), {| self := set_authorization tok new_helper; trace := authenticated p |}).
Proof.
  unfold token, get_auth, auth_call. intros H. exec.
  destruct (server _ _) as [msg|[body|e]]; try discriminate.
  rewrite H. reflexivity.
Qed.

Lemma first_lookup_inv server p vms :
  first_lookup server p = Ok vms →
  ∃ tok response,
    token server p = Ok tok ∧
    server (Invoke MGetVm :: authenticated p) GetVirtualResources = Response response ∧
    matching_vms response (hostname p) = Ok vms.
Proof.
  unfold first_lookup. intros H.
  apply res_bind_ok_inv in H as (tok & Htok & H).
  destruct (server _ _) as [msg|response]; [discriminate|]. eauto.
Qed.

Lemma get_vm_none server p w response :
  server (Invoke MGetVm :: trace w) GetVirtualResources = Response response →
  matching_vms response (hostname p) = Ok [] →
  get_vm server p w
  = (Ret (), {| self := self w;
                trace := Http GetVirtualResources :: Invoke MGetVm :: trace w |}).
Proof. intros Hs Hm. unfold get_vm. exec. rewrite Hs, Hm. reflexivity. Qed.

Lemma get_vm_duplicates server p w response vms :
  server (Invoke MGetVm :: trace w) GetVirtualResources = Response response →
  matching_vms response (hostname p) = Ok vms →
  (2 ≤ length vms)%nat →
  get_vm server p w
  = (FailJson ("Duplicate VMs with hostname " +:+ hostname p +:+ "."),
     {| self := self w;
        trace := Http GetVirtualResources :: Invoke MGetVm :: trace w |}).
Proof.
  intros Hs Hm Hlen. unfold get_vm. exec. rewrite Hs, Hm.
  rewrite bool_decide_true by lia. reflexivity.
Qed.

(** ** The inventory lookup in a run *)

(** C5: when two or more resources of the inventory listing carry the
    requested hostname, the run ends in [fail_json] with the duplicate
    hostname message, whatever the check mode, and the only calls it has
    issued are the token request and the inventory listing: neither the
    resources of a request nor any resource data are fetched. *)
Theorem duplicate_hostname_fails_fast (server : list event → call → reply) (p : params)
    (check_mode : bool) (fuel : nat) (vms : list json) :
  first_lookup server p = Ok vms →
  (2 ≤ length vms)%nat →
  ∃ tok,
    run server p check_mode fuel
    = (FailJson ("Duplicate VMs with hostname " +:+ hostname p +:+ "."),
       {| self := set_authorization tok new_helper;
          trace := Http GetVirtualResources :: Invoke MGetVm :: authenticated p |}).
Proof.
  intros Hlookup Hlen.
  apply first_lookup_inv in Hlookup as (tok & response & Htok & Hs & Hm).
  exists tok. unfold run, run_module.
  unfold mbind at 1, M_bind at 1. rewrite (get_auth_ok _ _ _ Htok).
  unfold mbind at 1, M_bind at 1.
  rewrite (get_vm_duplicates _ _ _ response vms) by done. reflexivity.
Qed.

Lemma duplicate_hostname_fails_fast_witness :
  ∃ tok,
    run (scripted duplicated) sample_params false 30
    = (FailJson "Duplicate VMs with hostname web01.",
       {| self := set_authorization tok new_helper;
          trace := Http GetVirtualResources :: Invoke MGetVm :: authenticated sample_params |}).
Proof.
  apply (duplicate_hostname_fails_fast (scripted duplicated) sample_params false 30
           [sample_vm; obj [("name", JStr "web01"); ("requestId", JStr "req-9")]]).
  - vm_compute. reflexivity.
  - simpl. lia.
Defined.

(** C3: in check mode, when the inventory lookup finds no resource with the
    requested hostname, the module exits through [exit_json] with
    [changed] true, and the run has issued the token request and the
    inventory listing only: no catalog lookup, no template fetch, no
    creation request, and none of the creation methods was entered. *)
Theorem check_mode_absent_reports_change (server : list event → call → reply)
    (p : params) (fuel : nat) :
  first_lookup server p = Ok [] →
  ∃ tok,
    run server p true fuel
    = (ExitJson (with_changed seed),
       {| self := set_authorization tok new_helper;
          trace := Http GetVirtualResources :: Invoke MGetVm :: authenticated p |})
    ∧ result_changed (with_changed seed) = true
    ∧ Forall (λ ev, creation_event ev = false)
             (Http GetVirtualResources :: Invoke MGetVm :: authenticated p).
Proof.
  intros Hlookup.
  apply first_lookup_inv in Hlookup as (tok & response & Htok & Hs & Hm).
  exists tok. split; [|split; [reflexivity|by repeat constructor]].
  unfold run, run_module.
  unfold mbind at 1, M_bind at 1. rewrite (get_auth_ok _ _ _ Htok).
  unfold mbind at 1, M_bind at 1.
  rewrite (get_vm_none _ _ _ response) by done. reflexivity.
Qed.

Lemma check_mode_absent_reports_change_witness :
  ∃ tok,
    run (scripted sample_script) sample_params true 30
    = (ExitJson (with_changed seed),
       {| self := set_authorization tok new_helper;
          trace := Http GetVirtualResources :: Invoke MGetVm :: authenticated sample_params |})
    ∧ result_changed (with_changed seed) = true
    ∧ Forall (λ ev, creation_event ev = false)
             (Http GetVirtualResources :: Invoke MGetVm :: authenticated sample_params).
Proof.
  apply (check_mode_absent_reports_change (scripted sample_script) sample_params 30).
  vm_compute. reflexivity.
Defined.

(** ** Outcomes and trace growth, compositionally *)

Lemma adds_refl P w : adds P w w.
Proof. by exists []. Qed.

Lemma adds_trans P w1 w2 w3 : adds P w1 w2 → adds P w2 w3 → adds P w1 w3.
Proof.
  intros (n1 & H1 & F1) (n2 & H2 & F2). exists (n2 ++ n1). split.
  - by rewrite H2, H1, app_assoc.
  - by rewrite forallb_app, F1, F2.
Qed.

Lemma adds_event P ev h h' t : P ev = true →
  adds P {| self := h; trace := t |} {| self := h'; trace := ev :: t |}.
Proof. intros H. exists [ev]. split; [done|]. simpl. by rewrite H. Qed.

Lemma adds_self P w h : adds P w {| self := h; trace := trace w |}.
Proof. by exists []. Qed.

Lemma adds_from_empty P w w' :
  trace w = [] → adds P w w' → Forall (λ ev, P ev = true) (trace w').
Proof.
  intros Hw (new & -> & H). rewrite Hw, app_nil_r.
  apply Forall_forall. intros ev Hev. rewrite forallb_forall in H.
  by apply H, list_elem_of_In.
Qed.

Lemma settled_mild {A} P (m : M A) : settled_on P m → mild_on P m.
Proof. intros H w. destruct (H w) as [Ho Ha]. split; [|done]. by destruct (fst (m w)). Qed.

Lemma mild_bind {A B} P (m : M A) (f : A → M B) :
  mild_on P m → (∀ a, mild_on P (f a)) → mild_on P (m ≫= f).
Proof.
  intros Hm Hf w. unfold mbind, M_bind. specialize (Hm w).
  destruct (m w) as [o w1]. destruct Hm as [Ho Ha]. simpl in Ho, Ha.
  destruct o as [a| | | | |]; try done.
  destruct (Hf a w1) as [Ho' Ha']. split; [done|]. by eapply adds_trans.
Qed.

Lemma settled_bind {A B} P (m : M A) (f : A → M B) :
  settled_on P m → (∀ a, settled_on P (f a)) → settled_on P (m ≫= f).
Proof.
  intros Hm Hf w. unfold mbind, M_bind. specialize (Hm w).
  destruct (m w) as [o w1]. destruct Hm as [Ho Ha]. simpl in Ho, Ha.
  destruct o as [a| | | | |]; try done.
  destruct (Hf a w1) as [Ho' Ha']. split; [done|]. by eapply adds_trans.
Qed.

Lemma settled_try {A} P (body : M A) (msg : exn → string) :
  mild_on P body → settled_on P (try_except body (λ e, fail_json (msg e))).
Proof.
  intros Hb w. unfold try_except. specialize (Hb w).
  destruct (body w) as [o w1]. destruct Hb as [Ho Ha]. by destruct o.
Qed.

Lemma mild_ret {A} P (a : A) : mild_on P (mret a).
Proof. intros w. split; [done|apply adds_refl]. Qed.

Lemma settled_ret {A} P (a : A) : settled_on P (mret a).
Proof. intros w. split; [done|apply adds_refl]. Qed.

Lemma mild_lift {A} P (r : res A) : mild_on P (lift r).
Proof. intros w. destruct r; (split; [done|apply adds_refl]). Qed.

Lemma mild_raise {A} P (e : exn) : mild_on P (@raise A e).
Proof. intros w. split; [done|apply adds_refl]. Qed.

Lemma mild_fail {A} P (msg : string) : mild_on P (@fail_json A msg).
Proof. intros w. split; [done|apply adds_refl]. Qed.

Lemma mild_update P (f : VRAHelper → VRAHelper) : mild_on P (update f).
Proof. intros w. split; [done|apply adds_self]. Qed.

Lemma mild_attr {A} P (name : string) (field : VRAHelper → option A) :
  mild_on P (attr name field).
Proof. intros w. unfold attr. destruct (field (self w)); (split; [done|apply adds_refl]). Qed.

Lemma mild_record P (ev : event) : P ev = true → mild_on P (record ev).
Proof. intros H [h t]. split; [done|]. by apply adds_event. Qed.

Lemma settled_record P (ev : event) : P ev = true → settled_on P (record ev).
Proof. intros H [h t]. split; [done|]. by apply adds_event. Qed.

Lemma mild_request P server (c : call) : P (Http c) = true → mild_on P (request server c).
Proof.
  intros H [h t]. unfold request. simpl.
  destruct (server t c); (split; [done|]); by apply adds_event.
Qed.

Create HintDb mild.
#[local] Hint Resolve mild_ret mild_lift mild_raise mild_fail mild_update mild_attr
  mild_record mild_request : mild.

Ltac mild_steps :=
  repeat first
    [ apply mild_bind; [|intros ?]
    | progress eauto with mild
    | match goal with
      | |- mild_on _ (if ?b then _ else _) => destruct b
      | |- mild_on _ (match ?x with _ => _ end) => destruct x
      end ].

Lemma get_auth_settled P server p :
  P (Invoke MGetAuth) = true → P (Http (auth_call p)) = true →
  settled_on P (get_auth server p).
Proof.
  intros H1 H2. unfold get_auth, invoke.
  apply settled_bind; [by apply settled_record|intros _].
  apply settled_try. mild_steps.
Qed.

Lemma get_vm_settled P server p :
  P (Invoke MGetVm) = true → P (Http GetVirtualResources) = true →
  (∀ id, P (Http (GetRequestResources id)) = true) →
  settled_on P (get_vm server p).
Proof.
  intros H1 H2 H3. unfold get_vm, invoke.
  apply settled_bind; [by apply settled_record|intros _].
  apply settled_try. mild_steps.
Qed.

Lemma get_vm_state_settled P server p :
  P (Invoke MGetVmState) = true → (∀ id, P (Http (GetResource id)) = true) →
  settled_on P (get_vm_state server p).
Proof.
  intros H1 H2. unfold get_vm_state, invoke.
  apply settled_bind; [by apply settled_record|intros _].
  apply settled_try. mild_steps.
Qed.

(** ** Check mode and the existing machine *)

(** The events of authentication and inventory lookup. *)
Lemma looked_up_settled P server p :
  P (Invoke MGetAuth) = true → P (Http (auth_call p)) = true →
  P (Invoke MGetVm) = true → P (Http GetVirtualResources) = true →
  (∀ id, P (Http (GetRequestResources id)) = true) →
  settled (fst (looked_up server p)) ∧
  Forall (λ ev, P ev = true) (trace (snd (looked_up server p))).
Proof.
  intros H1 H2 H3 H4 H5. unfold looked_up.
  destruct (settled_bind P (get_auth server p) (λ _, get_vm server p)
              (get_auth_settled P server p H1 H2)
              (λ _, get_vm_settled P server p H3 H4 H5)
              {| self := new_helper; trace := [] |}) as [Ho Ha].
  split; [done|]. eapply adds_from_empty; [|exact Ha]. done.
Qed.

Lemma bind_assoc {A B C} (m : M A) (f : A → M B) (g : B → M C) (w : world) :
  (m ≫= (λ a, f a ≫= g)) w = ((m ≫= f) ≫= g) w.
Proof. unfold mbind, M_bind. by destruct (m w) as [[] ?]. Qed.

Lemma run_fails_with_lookup server p check_mode fuel msg w :
  looked_up server p = (FailJson msg, w) →
  run server p check_mode fuel = (FailJson msg, w).
Proof.
  intros Hlook. unfold run, run_module.
  rewrite (bind_assoc (get_auth server p) (λ _, get_vm server p)).
  unfold mbind at 1, M_bind at 1. fold (looked_up server p). by rewrite Hlook.
Qed.

Lemma run_after_lookup server p check_mode fuel w :
  looked_up server p = (Ret (), w) →
  run server p check_mode fuel
  = ((if check_mode then
        address ← get_ip;
        exit_json (if is_none address then with_changed seed else seed)
      else mret ());;
     address ← get_ip;
     result ←
       (if is_none address then
          let result := with_changed seed in
          get_catalog_id server p;;
          get_template_json server;;
          customize_template p;;
          create_vm_from_template server;;
          poll_loop server p fuel 0;;
          get_vm server p;;
          mret result
        else mret seed);
     get_vm_state server p;;
     status ← attr "state" state;
     id ← attr "destroy_id" destroy_id;
     address ← get_ip;
     exit_json
       {| result_changed := result_changed result; result_failed := result_failed result;
          result_state := status; result_destroy_id := id;
          result_ip := address; result_hostname := JStr (hostname p) |}) w.
Proof.
  intros Hlook. unfold run, run_module.
  rewrite (bind_assoc (get_auth server p) (λ _, get_vm server p)).
  unfold mbind at 1, M_bind at 1. fold (looked_up server p). by rewrite Hlook.
Qed.

(** C10: a run in check mode never looks the machine state up.  Either the
    authentication or the inventory lookup fails and the run ends with that
    failure, or the module exits with the seeded values: [state],
    [destroy_id], [ip] and [hostname] are empty strings and [failed] is
    false, whether a machine was found or not; only [changed] varies, being
    true exactly when no address was recorded. *)
Theorem check_mode_exits_with_seed (server : list event → call → reply) (p : params)
    (fuel : nat) :
  ∃ w,
    Forall (λ ev, state_event ev = false) (trace w) ∧
    ((∃ msg, looked_up server p = (FailJson msg, w) ∧
             run server p true fuel = (FailJson msg, w)) ∨
     (looked_up server p = (Ret (), w) ∧
      run server p true fuel
      = (ExitJson {| result_changed := is_none (ip (self w)); result_failed := false;
                     result_state := JStr ""; result_destroy_id := JStr "";
                     result_ip := JStr ""; result_hostname := JStr "" |}, w))).
Proof.
  destruct (looked_up_settled (λ ev, negb (state_event ev)) server p
              eq_refl eq_refl eq_refl eq_refl (λ _, eq_refl)) as [Ho Ht].
  destruct (looked_up server p) as [o w] eqn:Hlook. exists w. split.
  { eapply Forall_impl; [exact Ht|]. intros ev. simpl. by destruct (state_event ev). }
  destruct o as [[]| | | | |]; try done.
  - right. split; [done|]. rewrite (run_after_lookup server p true fuel w Hlook). exec.
    by destruct (is_none (ip (let (self, _) := w in self))).
  - left. exists msg. split; [done|]. by apply run_fails_with_lookup.
Qed.

Lemma adds_Forall P w w' :
  Forall (λ ev, P ev = true) (trace w) → adds P w w' →
  Forall (λ ev, P ev = true) (trace w').
Proof.
  intros Hw (new & -> & H). apply Forall_app. split; [|done].
  apply Forall_forall. intros ev Hev. rewrite forallb_forall in H.
  by apply H, list_elem_of_In.
Qed.

(** The guard of [run_module]: the creation path is entered only when the
    lookup has completed and left the address at [None]. *)
Lemma recorded_address_skips_creation (server : list event → call → reply) (p : params)
    (check_mode : bool) (fuel : nat) :
  (fst (looked_up server p) = Ret () →
   is_none (ip (self (snd (looked_up server p)))) = false) →
  Forall (λ ev, creation_event ev = false) (trace (snd (run server p check_mode fuel))).
Proof.
  intros Hip.
  set (P := λ ev, negb (creation_event ev)).
  assert (HP : ∀ t, Forall (λ ev, P ev = true) t → Forall (λ ev, creation_event ev = false) t).
  { intros t Hall. eapply Forall_impl; [exact Hall|].
    intros ev. unfold P. by destruct (creation_event ev). }
  apply HP.
  destruct (looked_up_settled P server p eq_refl eq_refl eq_refl eq_refl (λ _, eq_refl))
    as [Ho Ht].
  destruct (looked_up server p) as [o w] eqn:Hlook. simpl in Hip, Ho, Ht.
  destruct o as [[]| | | | |]; try done.
  - specialize (Hip eq_refl).
    rewrite (run_after_lookup server p check_mode fuel w Hlook).
    destruct check_mode.
    + exec. by destruct (is_none _).
    + destruct (get_vm_state_settled P server p eq_refl (λ _, eq_refl) w) as [Hs Ha].
      pose proof (adds_Forall P w _ Ht Ha) as Ht'.
      exec. rewrite Hip.
      destruct (get_vm_state server p w) as [[[]| | | | |] [h3 t3]]; try done.
      simpl in Ht' |- *.
      by destruct (state h3), (destroy_id h3).
  - by rewrite (run_fails_with_lookup server p check_mode fuel msg w Hlook).
Qed.

(** C4 at the failing input: the inventory lists exactly one machine with
    the requested hostname and the [ip_address] entry of its resource data
    has the value [null].  The lookup completes and leaves the address at
    [None], so outside check mode the run takes the machine for absent: it
    enters the four creation methods, posts a creation request for the
    hostname that already exists, and exits with [changed] true. *)
Theorem null_address_creates_second_machine :
  first_lookup (scripted null_address) sample_params = Ok [sample_vm] ∧
  fst (looked_up (scripted null_address) sample_params) = Ret () ∧
  ip (self (snd (looked_up (scripted null_address) sample_params))) = JNull ∧
  List.filter creation_event
    (trace (snd (run (scripted null_address) sample_params false 30)))
  = [Http (PostRequests (JStr "cat-2") sample_customized); Invoke MCreateVmFromTemplate;
     Invoke MCustomizeTemplate; Http (GetRequestTemplate (JStr "cat-2"));
     Invoke MGetTemplateJson; Http GetEntitledCatalogItems; Invoke MGetCatalogId] ∧
  fst (run (scripted null_address) sample_params false 30)
  = ExitJson {| result_changed := true; result_failed := false;
                result_state := JStr "On"; result_destroy_id := JStr "res-9";
                result_ip := JNull; result_hostname := JStr "web01" |}.
Proof. repeat split; vm_compute; reflexivity. Qed.

(** ** A matching resource without an address entry *)

Lemma comprehension_none (test : json → res bool) (items : list json) :
  Forall (λ element, test element = Ok false) items →
  comprehension test items = Ok [].
Proof.
  induction 1 as [|element items Htest _ IH]; [done|].
  simpl. rewrite Htest. simpl. by rewrite IH.
Qed.

Lemma no_address_entry_fails (meta_dict : json) :
  no_address_entry meta_dict →
  (data ← getitem meta_dict "resourceData";
   entries ← getitem data "entries";
   entry_with_key entries "ip_address")
  = Err (IndexError "list index out of range").
Proof.
  intros (data & entries & items & Hdata & Hentries & Hiter & Hnone).
  rewrite Hdata. simpl. rewrite Hentries. simpl.
  unfold entry_with_key. rewrite Hiter. simpl.
  rewrite comprehension_none; [done|].
  eapply Forall_impl; [exact Hnone|].
  intros element (k & Hk & Hne). rewrite Hk. simpl. by rewrite Hne.
Qed.

(** C6, amended: when the lookup finds a single resource with the requested
    hostname and the infrastructure resource of its request has resource
    data without an [ip_address] entry, [get_vm] does not return: it ends in
    [fail_json] with the lookup failure message carrying the index error,
    after the inventory listing and the request's resources have been
    fetched. *)
Theorem missing_address_is_fatal (server : list event → call → reply) (p : params)
    (w : world) (listing resources : res json) (vm id meta_dict destroy : json) :
  server (Invoke MGetVm :: trace w) GetVirtualResources = Response listing →
  matching_vms listing (hostname p) = Ok [vm] →
  getitem vm "requestId" = Ok id →
  server (Http GetVirtualResources :: Invoke MGetVm :: trace w) (GetRequestResources id)
  = Response resources →
  infrastructure_resource resources = Ok meta_dict →
  getitem meta_dict "id" = Ok destroy →
  no_address_entry meta_dict →
  get_vm server p w
  = (FailJson ("Failed to get VM details for '" +:+ hostname p
               +:+ "': list index out of range"),
     {| self := set_destroy_id destroy (set_request_id id (self w));
        trace := Http (GetRequestResources id) :: Http GetVirtualResources
                 :: Invoke MGetVm :: trace w |}).
Proof.
  intros Hlisting Hvms Hid Hresources Hmeta Hdestroy Hnone.
  apply no_address_entry_fails in Hnone.
  unfold get_vm. exec. rewrite Hlisting, Hvms. simpl.
  rewrite Hid, Hresources, Hmeta, Hdestroy.
  cbv [mbind res_bind] in Hnone. rewrite Hnone. reflexivity.
Qed.

Lemma missing_address_is_fatal_witness :
  get_vm (scripted without_address) sample_params sample_authenticated
  = (FailJson "Failed to get VM details for 'web01': list index out of range",
     {| self := set_destroy_id (JStr "res-9")
                  (set_request_id (JStr "req-7") (self sample_authenticated));
        trace := Http (GetRequestResources (JStr "req-7")) :: Http GetVirtualResources
                 :: Invoke MGetVm :: trace sample_authenticated |}).
Proof.
  apply (missing_address_is_fatal (scripted without_address) sample_params
           sample_authenticated
           (Ok (sample_inventory [sample_vm]))
           (Ok (sample_resources [sample_entry "MachineName" (JStr "web01")]))
           sample_vm (JStr "req-7")
           (sample_infrastructure [sample_entry "MachineName" (JStr "web01")])
           (JStr "res-9")).
  - reflexivity.
  - vm_compute. reflexivity.
  - vm_compute. reflexivity.
  - reflexivity.
  - vm_compute. reflexivity.
  - vm_compute. reflexivity.
  - exists (obj [("entries", JList [sample_entry "MachineName" (JStr "web01")])]),
      (JList [sample_entry "MachineName" (JStr "web01")]),
      [sample_entry "MachineName" (JStr "web01")].
    split; [vm_compute; reflexivity|]. split; [vm_compute; reflexivity|].
    split; [reflexivity|].
    repeat constructor. exists (JStr "MachineName"). split; vm_compute; reflexivity.
Defined.

(** The claim C6 fails on a single matching machine whose infrastructure
    resource has no [ip_address] entry yet: the lookup does not return with
    an empty address, the run ends in [fail_json]. *)
Lemma missing_address_counterexample :
  first_lookup (scripted without_address) sample_params = Ok [sample_vm] ∧
  entry_with_key (JList [sample_entry "MachineName" (JStr "web01")]) "ip_address"
  = Err (IndexError "list index out of range") ∧
  fst (looked_up (scripted without_address) sample_params)
  = FailJson "Failed to get VM details for 'web01': list index out of range" ∧
  fst (run (scripted without_address) sample_params false 30)
  = FailJson "Failed to get VM details for 'web01': list index out of range".
Proof. repeat split; vm_compute; reflexivity. Qed.

(** ** The catalog lookup *)

Lemma catalog_loop_spec (items : list json) (entries : list (string * json)) :
  Forall2 catalog_entry items entries →
  ∀ catalog_dict : gmap string json,
    catalog_loop items catalog_dict
    = Ok (foldl (λ d entry, <[entry.1 := entry.2]> d) catalog_dict entries).
Proof.
  induction 1 as [|item entry items entries (ci & Hci & Hname & Hid) _ IH];
    intros catalog_dict; [done|].
  simpl. rewrite Hci. simpl. rewrite Hname, Hid. simpl. apply IH.
Qed.

Lemma catalog_dict_lookup (entries : list (string * json)) (name : string) :
  ∀ catalog_dict : gmap string json,
    foldl (λ d entry, <[entry.1 := entry.2]> d) catalog_dict entries !! name
    = match spec_catalog_id entries name with
      | Some id => Some id
      | None => catalog_dict !! name
      end.
Proof.
  unfold spec_catalog_id.
  induction entries as [|entry entries IH]; intros catalog_dict; [done|].
  simpl. rewrite IH, filter_cons. case_decide as Hname.
  - rewrite last_cons. destruct (last (filter _ entries)); simpl; [done|].
    by rewrite Hname, lookup_insert_eq.
  - destruct (last (filter _ entries)); simpl; [done|].
    by rewrite lookup_insert_ne.
Qed.

(** C7: on a listing whose elements are catalog entries, [get_catalog_id]
    stores the id of the last entry, in listing order, whose name is exactly
    the requested blueprint name, and returns without any notice when
    several entries have that name; when no entry has it, the method ends
    in [fail_json], with the catalog lookup message for the blueprint
    followed by the text of the [KeyError], and stores nothing. *)
Theorem catalog_id_is_last_exact_match (server : list event → call → reply) (p : params)
    (w : world) (body content : json) (items : list json)
    (entries : list (string * json)) :
  server (Invoke MGetCatalogId :: trace w) GetEntitledCatalogItems = Response (Ok body) →
  getitem body "content" = Ok content →
  iter content = Ok items →
  Forall2 catalog_entry items entries →
  match spec_catalog_id entries (blueprint_name p) with
  | Some id =>
      get_catalog_id server p w
      = (Ret (), {| self := set_catalog_id id (self w);
                    trace := Http GetEntitledCatalogItems :: Invoke MGetCatalogId
                             :: trace w |})
  | None =>
      ∃ text,
        get_catalog_id server p w
        = (FailJson ("Failed to get catalog ID for blueprint " +:+ blueprint_name p
                     +:+ ": " +:+ text),
           {| self := self w;
              trace := Http GetEntitledCatalogItems :: Invoke MGetCatalogId
                       :: trace w |})
  end.
Proof.
  intros Hserver Hcontent Hiter Hentries.
  unfold get_catalog_id. exec. rewrite Hserver, Hcontent, Hiter.
  rewrite (catalog_loop_spec items entries Hentries). cbv [getitem].
  rewrite catalog_dict_lookup, lookup_empty.
  destruct (spec_catalog_id entries (blueprint_name p)); [done|].
  by eexists.
Qed.

Lemma catalog_id_is_last_exact_match_witness :
  get_catalog_id (scripted (with_catalog (ok ambiguous_catalog))) sample_params
    sample_authenticated
  = (Ret (), {| self := set_catalog_id (JStr "cat-3") (self sample_authenticated);
                trace := Http GetEntitledCatalogItems :: Invoke MGetCatalogId
                         :: trace sample_authenticated |}).
Proof.
  apply (catalog_id_is_last_exact_match (scripted (with_catalog (ok ambiguous_catalog)))
           sample_params sample_authenticated ambiguous_catalog
           (JList [sample_catalog_item "Linux" "cat-1"; sample_catalog_item "Windows" "cat-2";
                   sample_catalog_item "Linux" "cat-3"; sample_catalog_item "linux" "cat-4"])
           [sample_catalog_item "Linux" "cat-1"; sample_catalog_item "Windows" "cat-2";
            sample_catalog_item "Linux" "cat-3"; sample_catalog_item "linux" "cat-4"]
           [("Linux", JStr "cat-1"); ("Windows", JStr "cat-2");
            ("Linux", JStr "cat-3"); ("linux", JStr "cat-4")]).
  - reflexivity.
  - vm_compute. reflexivity.
  - reflexivity.
  - repeat constructor; eexists; (split; [|split]); vm_compute; reflexivity.
Defined.

(** ** How failures surface *)

(** Every method that wraps its body in [try]/[except] ends normally or in
    [fail_json]; no exception leaves it. *)
Lemma get_catalog_id_settled server p :
  settled_on (λ _, true) (get_catalog_id server p).
Proof.
  unfold get_catalog_id, invoke.
  apply settled_bind; [by apply settled_record|intros _].
  apply settled_try. mild_steps.
Qed.

Lemma get_template_json_settled server :
  settled_on (λ _, true) (get_template_json server).
Proof.
  unfold get_template_json, invoke.
  apply settled_bind; [by apply settled_record|intros _].
  apply settled_try. mild_steps.
Qed.

Lemma create_vm_from_template_settled server :
  settled_on (λ _, true) (create_vm_from_template server).
Proof.
  unfold create_vm_from_template, invoke.
  apply settled_bind; [by apply settled_record|intros _].
  apply settled_try. mild_steps.
Qed.

Lemma get_vm_build_status_settled server :
  settled_on (λ _, true) (get_vm_build_status server).
Proof.
  unfold get_vm_build_status, invoke.
  apply settled_bind; [by apply settled_record|intros _].
  apply settled_try. mild_steps.
Qed.

(** [customize_template] has no handler: an exception of the customization
    leaves the method as it is. *)
Lemma customize_template_raises (p : params) (w : world) (template : gmap string json)
    (e : exn) :
  template_json (self w) = Some (TResponse (Ok (JDict template))) →
  customize p template = Err e →
  customize_template p w
  = (Raise e, {| self := self w; trace := Invoke MCustomizeTemplate :: trace w |}).
Proof.
  intros Hslot Hcustomize. unfold customize_template. exec.
  rewrite Hslot. simpl. exec. by rewrite Hcustomize.
Qed.

(** C8 at the failing input: the service answers the template request with
    an empty object.  The run does not end in [fail_json]: the [KeyError] of
    the customization propagates out of [run_module], right after
    [customize_template] was entered and before any creation request. *)
Theorem malformed_template_propagates_raw :
  run (scripted (with_template (ok (obj [])))) sample_params false 30
  = (Raise (KeyError "'data'"),
     {| self := set_template_json (TResponse (Ok (obj [])))
                  (set_catalog_id (JStr "cat-2")
                     (set_authorization (JStr "token-1") new_helper));
        trace := [Invoke MCustomizeTemplate;
                  Http (GetRequestTemplate (JStr "cat-2")); Invoke MGetTemplateJson;
                  Http GetEntitledCatalogItems; Invoke MGetCatalogId;
                  Http GetVirtualResources; Invoke MGetVm;
                  Http (PostTokens "automation" "secret" "vsphere.local");
                  Invoke MGetAuth] |}).
Proof. vm_compute. reflexivity. Qed.

(** ** The polling loop *)

Section Polling.

Variable server : list event → call → reply.
Variable p : params.
Variable id : json.
Variable t0 : list event.

Lemma get_vm_build_status_ok (w : world) (status details : json) :
  request_id (self w) = Some id →
  fetch server id (Invoke MGetVmBuildStatus :: trace w) = Ok (status, details) →
  get_vm_build_status server w
  = (Ret (), {| self := set_build_explanation details (set_build_status status (self w));
                trace := Http (GetRequest id) :: Invoke MGetVmBuildStatus :: trace w |}).
Proof.
  intros Hid Hfetch. unfold fetch in Hfetch. unfold get_vm_build_status. exec.
  rewrite Hid. destruct (server _ _) as [msg|response]; [discriminate|].
  destruct (state_name response) as [status'|e]; [|discriminate].
  destruct (completion_details response) as [details'|e]; [|discriminate].
  by injection Hfetch as -> ->.
Qed.

Lemma get_vm_build_status_err (w : world) (e : exn) :
  request_id (self w) = Some id →
  fetch server id (Invoke MGetVmBuildStatus :: trace w) = Err e →
  fst (get_vm_build_status server w)
  = FailJson ("Failed to get VM create status: " +:+ str_exn e).
Proof.
  intros Hid Hfetch. unfold fetch in Hfetch. unfold get_vm_build_status. exec.
  rewrite Hid. destruct (server _ _) as [msg|response]; [by injection Hfetch as <-|].
  destruct (state_name response) as [status'|e']; [|by injection Hfetch as <-].
  destruct (completion_details response) as [details'|e']; [discriminate|].
  by injection Hfetch as <-.
Qed.

(** One pass through the loop body, once the status has been fetched. *)
Lemma poll_ok (timer : Z) (w : world) (status details : json) :
  request_id (self w) = Some id →
  fetch server id (Invoke MGetVmBuildStatus :: trace w) = Ok (status, details) →
  poll server p timer w
  = let w' := {| self := set_build_explanation details (set_build_status status (self w));
                 trace := Http (GetRequest id) :: Invoke MGetVmBuildStatus :: trace w |} in
    if bool_decide (wait_timeout p ≤ timer)%Z then (FailJson (timeout_message p), w')
    else if eq_str status "Failed" then
      (text ← py_str details; fail_json ("Failed to create VM: " +:+ text)) w'
    else if eq_str status "Successful" then (Ret true, w')
    else (Ret false, w').
Proof.
  intros Hid Hfetch. unfold poll. unfold mbind at 1, M_bind at 1.
  rewrite (get_vm_build_status_ok w status details Hid Hfetch).
  unfold timeout_message. case_bool_decide; [done|].
  exec. simpl. destruct (eq_str status "Failed"); [done|].
  by destruct (eq_str status "Successful").
Qed.

Lemma poll_err (timer : Z) (w : world) (e : exn) :
  request_id (self w) = Some id →
  fetch server id (Invoke MGetVmBuildStatus :: trace w) = Err e →
  fst (poll server p timer w) = FailJson ("Failed to get VM create status: " +:+ str_exn e).
Proof.
  intros Hid Hfetch. unfold poll. unfold mbind at 1, M_bind at 1.
  pose proof (get_vm_build_status_err w e Hid Hfetch) as H.
  destruct (get_vm_build_status server w) as [o w']. simpl in H. by subst o.
Qed.

Lemma eq_str_true (j : json) (text : string) : eq_str j text = true → j = JStr text.
Proof. destruct j; try discriminate. simpl. intros H. by apply bool_decide_eq_true in H as ->. Qed.

(** A pending poll leads to the sleep and to the next poll. *)
Lemma poll_loop_pending (k fuel : nat) (w : world) :
  polling id t0 k w →
  pending server p id t0 k →
  ∃ w', poll_loop server p (S fuel) (15 * Z.of_nat k) w
        = poll_loop server p fuel (15 * Z.of_nat (S k)) w' ∧
        polling id t0 (S k) w'.
Proof.
  intros [Hid Htrace] (Htime & status & details & Hfetch & Hprogress).
  unfold fetched in Hfetch. rewrite <- Htrace in Hfetch.
  apply andb_true_iff in Hprogress as [Hfailed Hsuccessful].
  apply negb_true_iff in Hfailed, Hsuccessful.
  exists {| self := set_build_explanation details (set_build_status status (self w));
            trace := Sleep 15 :: Http (GetRequest id) :: Invoke MGetVmBuildStatus
                     :: trace w |}.
  split.
  - cbn [poll_loop]. unfold mbind at 1, M_bind at 1.
    rewrite (poll_ok _ _ _ _ Hid Hfetch). cbv zeta.
    rewrite bool_decide_false, Hfailed, Hsuccessful by lia.
    replace (15 * Z.of_nat k + 15) with (15 * Z.of_nat (S k)) by lia.
    reflexivity.
  - split; [done|]. simpl. by rewrite Htrace.
Qed.

Lemma poll_loop_skip (n : nat) :
  ∀ (k fuel : nat) (w : world),
    polling id t0 k w →
    (∀ j, (k ≤ j < k + n)%nat → pending server p id t0 j) →
    ∃ w', poll_loop server p (n + fuel) (15 * Z.of_nat k) w
          = poll_loop server p fuel (15 * Z.of_nat (k + n)) w' ∧
          polling id t0 (k + n) w'.
Proof.
  induction n as [|n IH]; intros k fuel w Hw Hpending.
  - exists w. by rewrite Nat.add_0_r.
  - destruct (poll_loop_pending k (n + fuel) w Hw) as (w1 & Hstep & Hw1).
    { apply Hpending. lia. }
    destruct (IH (S k) fuel w1 Hw1) as (w' & Hrest & Hw').
    { intros j Hj. apply Hpending. lia. }
    exists w'. replace (k + S n)%nat with (S k + n)%nat by lia.
    split; [|done]. cbn [Nat.add]. by rewrite Hstep.
Qed.

(** The loop up to poll [k], when all earlier polls were pending. *)
Lemma poll_loop_reaches (k fuel : nat) (w0 : world) :
  request_id (self w0) = Some id → trace w0 = t0 →
  (∀ j, (j < k)%nat → pending server p id t0 j) →
  (k < fuel)%nat →
  ∃ fuel' w, poll_loop server p fuel 0 w0
             = poll_loop server p (S fuel') (15 * Z.of_nat k) w ∧
             polling id t0 k w.
Proof.
  intros Hid Htrace Hpending Hfuel.
  destruct (poll_loop_skip k 0 (fuel - k) w0) as (w & Hskip & Hw).
  { by split. }
  { intros j Hj. apply Hpending. lia. }
  exists (fuel - k - 1)%nat, w.
  change (15 * Z.of_nat 0) with 0 in Hskip. cbn [Nat.add] in Hskip, Hw.
  replace (k + (fuel - k))%nat with fuel in Hskip by lia.
  replace (S (fuel - k - 1)) with (fuel - k)%nat by lia.
  by rewrite Hskip.
Qed.

(** At a poll whose status was fetched at or after the timeout, the loop
    ends with the timeout failure, whatever the status. *)
Lemma poll_loop_times_out (k fuel : nat) (w0 : world) (status details : json) :
  request_id (self w0) = Some id → trace w0 = t0 →
  (∀ j, (j < k)%nat → pending server p id t0 j) →
  (k < fuel)%nat →
  wait_timeout p ≤ 15 * Z.of_nat k →
  fetched server id t0 k = Ok (status, details) →
  ∃ h, poll_loop server p fuel 0 w0
       = (FailJson (timeout_message p),
          {| self := h;
             trace := Http (GetRequest id) :: Invoke MGetVmBuildStatus :: polled id k t0 |}).
Proof.
  intros Hid Htrace Hpending Hfuel Htime Hfetch.
  destruct (poll_loop_reaches k fuel w0 Hid Htrace Hpending Hfuel)
    as (fuel' & w & -> & Hidw & Htracew).
  unfold fetched in Hfetch. rewrite <- Htracew in Hfetch.
  cbn [poll_loop]. unfold mbind at 1, M_bind at 1.
  rewrite (poll_ok _ _ _ _ Hidw Hfetch). cbv zeta.
  rewrite bool_decide_true by done. rewrite Htracew. eauto.
Qed.

Lemma poll_loop_succeeds (k fuel : nat) (w0 : world) (details : json) :
  request_id (self w0) = Some id → trace w0 = t0 →
  (∀ j, (j < k)%nat → pending server p id t0 j) →
  (k < fuel)%nat →
  15 * Z.of_nat k < wait_timeout p →
  fetched server id t0 k = Ok (JStr "Successful", details) →
  fst (poll_loop server p fuel 0 w0) = Ret ().
Proof.
  intros Hid Htrace Hpending Hfuel Htime Hfetch.
  destruct (poll_loop_reaches k fuel w0 Hid Htrace Hpending Hfuel)
    as (fuel' & w & -> & Hidw & Htracew).
  unfold fetched in Hfetch. rewrite <- Htracew in Hfetch.
  cbn [poll_loop]. unfold mbind at 1, M_bind at 1.
  rewrite (poll_ok _ _ _ _ Hidw Hfetch). cbv zeta.
  by rewrite bool_decide_false by lia.
Qed.

Lemma poll_loop_rejected (k fuel : nat) (w0 : world) (text : string) :
  request_id (self w0) = Some id → trace w0 = t0 →
  (∀ j, (j < k)%nat → pending server p id t0 j) →
  (k < fuel)%nat →
  15 * Z.of_nat k < wait_timeout p →
  fetched server id t0 k = Ok (JStr "Failed", JStr text) →
  fst (poll_loop server p fuel 0 w0) = FailJson ("Failed to create VM: " +:+ text).
Proof.
  intros Hid Htrace Hpending Hfuel Htime Hfetch.
  destruct (poll_loop_reaches k fuel w0 Hid Htrace Hpending Hfuel)
    as (fuel' & w & -> & Hidw & Htracew).
  unfold fetched in Hfetch. rewrite <- Htracew in Hfetch.
  cbn [poll_loop]. unfold mbind at 1, M_bind at 1.
  rewrite (poll_ok _ _ _ _ Hidw Hfetch). cbv zeta.
  by rewrite bool_decide_false by lia.
Qed.

(** A loop that returns has seen [Successful] at a poll before the timeout,
    with every earlier poll pending. *)
Lemma poll_loop_ret_inv (fuel : nat) :
  ∀ (k : nat) (w : world),
    polling id t0 k w →
    fst (poll_loop server p fuel (15 * Z.of_nat k) w) = Ret () →
    ∃ (k' : nat) (details : json),
      (k ≤ k')%nat ∧
      (∀ j, (k ≤ j < k')%nat → pending server p id t0 j) ∧
      15 * Z.of_nat k' < wait_timeout p ∧
      fetched server id t0 k' = Ok (JStr "Successful", details).
Proof.
  induction fuel as [|fuel IH]; intros k w Hw Hret; [discriminate|].
  pose proof Hw as [Hid Htrace].
  destruct (fetched server id t0 k) as [[status details]|e] eqn:Hfetch.
  - pose proof Hfetch as Hfetch'. unfold fetched in Hfetch'. rewrite <- Htrace in Hfetch'.
    cbn [poll_loop] in Hret. unfold mbind at 1, M_bind at 1 in Hret.
    rewrite (poll_ok _ _ _ _ Hid Hfetch') in Hret. cbv zeta in Hret.
    case_bool_decide as Htime; [discriminate|].
    destruct (eq_str status "Failed") eqn:Hfailed.
    { unfold mbind, M_bind in Hret. by destruct details as [|[]| | | |]. }
    destruct (eq_str status "Successful") eqn:Hsuccessful.
    + apply eq_str_true in Hsuccessful as ->.
      exists k, details. split; [lia|]. split; [intros j Hj; lia|]. split; [lia|done].
    + assert (Hk : pending server p id t0 k).
      { split; [lia|]. exists status, details. split; [done|].
        unfold in_progress. by rewrite Hfailed, Hsuccessful. }
      destruct (poll_loop_pending k fuel w Hw Hk) as (w' & Hstep & Hw').
      cbn [poll_loop] in Hstep. unfold mbind at 1, M_bind at 1 in Hstep.
      rewrite (poll_ok _ _ _ _ Hid Hfetch') in Hstep. cbv zeta in Hstep.
      rewrite bool_decide_false, Hfailed, Hsuccessful in Hstep by done.
      rewrite Hstep in Hret.
      destruct (IH (S k) w' Hw' Hret) as (k' & details' & Hle & Hpending & Hlt & Hok).
      exists k', details'. split; [lia|]. split; [|done].
      intros j Hj. destruct (decide (j = k)) as [->|Hne]; [done|]. apply Hpending. lia.
  - unfold fetched in Hfetch. rewrite <- Htrace in Hfetch.
    cbn [poll_loop] in Hret. unfold mbind at 1, M_bind at 1 in Hret.
    pose proof (poll_err (15 * Z.of_nat k) w e Hid Hfetch) as Herr.
    destruct (poll server p (15 * Z.of_nat k) w) as [o w']. simpl in Herr. by subst o.
Qed.

(** With enough fuel for the remaining polls the loop is not cut short. *)
Lemma poll_loop_terminates (fuel : nat) :
  ∀ (k : nat) (w : world),
    polling id t0 k w →
    (1 ≤ fuel)%nat →
    wait_timeout p ≤ 15 * (Z.of_nat k + Z.of_nat fuel - 1) →
    fst (poll_loop server p fuel (15 * Z.of_nat k) w) ≠ OutOfFuel.
Proof.
  induction fuel as [|fuel IH]; intros k w Hw Hfuel Hbound; [lia|].
  pose proof Hw as [Hid Htrace].
  destruct (fetched server id t0 k) as [[status details]|e] eqn:Hfetch.
  - pose proof Hfetch as Hfetch'. unfold fetched in Hfetch'. rewrite <- Htrace in Hfetch'.
    cbn [poll_loop]. unfold mbind at 1, M_bind at 1.
    rewrite (poll_ok _ _ _ _ Hid Hfetch'). cbv zeta.
    case_bool_decide as Htime; [done|].
    destruct (eq_str status "Failed") eqn:Hfailed.
    { unfold mbind, M_bind. by destruct details as [|[]| | | |]. }
    destruct (eq_str status "Successful") eqn:Hsuccessful; [done|].
    assert (Hk : pending server p id t0 k).
    { split; [lia|]. exists status, details. split; [done|].
      unfold in_progress. by rewrite Hfailed, Hsuccessful. }
    destruct (poll_loop_pending k fuel w Hw Hk) as (w' & Hstep & Hw').
    cbn [poll_loop] in Hstep. unfold mbind at 1, M_bind at 1 in Hstep.
    rewrite (poll_ok _ _ _ _ Hid Hfetch') in Hstep. cbv zeta in Hstep.
    rewrite bool_decide_false, Hfailed, Hsuccessful in Hstep by done.
    rewrite Hstep. apply IH; [done|lia|lia].
  - unfold fetched in Hfetch. rewrite <- Htrace in Hfetch.
    cbn [poll_loop]. unfold mbind at 1, M_bind at 1.
    pose proof (poll_err (15 * Z.of_nat k) w e Hid Hfetch) as Herr.
    destruct (poll server p (15 * Z.of_nat k) w) as [o w']. simpl in Herr. by subst o.
Qed.

Lemma polls_bound : wait_timeout p ≤ 15 * (Z.of_nat 0 + Z.of_nat (polls p) - 1).
Proof.
  unfold polls. rewrite Nat2Z.inj_succ.
  destruct (Z_le_gt_dec (wait_timeout p) 0) as [Hneg|Hpos]; [lia|].
  rewrite Z2Nat.id by (apply Z.div_pos; lia).
  pose proof (Z.mul_succ_div_gt (wait_timeout p + 14) 15). lia.
Qed.

Lemma polls_cover (k : nat) : 15 * Z.of_nat k < wait_timeout p → (k < polls p)%nat.
Proof.
  intros Hk. unfold polls.
  assert (Z.of_nat k ≤ (wait_timeout p + 14) / 15) by (apply Z.div_le_lower_bound; lia).
  lia.
Qed.

End Polling.

(** C2: the polling loop started with the request id [id] fetches the build
    status at elapsed times 0, 15, 30, ... (poll [k] at [15 * k]).  Run for
    at least [polls p] iterations it is never cut short, and it returns
    normally exactly when some poll before the timeout fetches the status
    [Successful] after polls that were all pending.  When the polls before
    the timeout were all pending and the poll at which the elapsed time has
    reached the timeout still finds the request in progress, the loop ends
    in [fail_json] with the timeout message.  When a poll before the timeout
    fetches [Failed] with the completion text [text], the loop ends in
    [fail_json] with a message that carries [text]. *)
Theorem polling_loop_outcomes (server : list event → call → reply) (p : params)
    (w0 : world) (id : json) :
  request_id (self w0) = Some id →
  (∀ fuel, (polls p ≤ fuel)%nat → fst (poll_loop server p fuel 0 w0) ≠ OutOfFuel) ∧
  (∀ fuel, (polls p ≤ fuel)%nat →
     fst (poll_loop server p fuel 0 w0) = Ret () ↔
     ∃ (k : nat) (details : json),
       (∀ j, (j < k)%nat → pending server p id (trace w0) j) ∧
       15 * Z.of_nat k < wait_timeout p ∧
       fetched server id (trace w0) k = Ok (JStr "Successful", details)) ∧
  (∀ (fuel k : nat) (status details : json),
     (k < fuel)%nat →
     (∀ j, (j < k)%nat → pending server p id (trace w0) j) →
     wait_timeout p ≤ 15 * Z.of_nat k →
     fetched server id (trace w0) k = Ok (status, details) →
     in_progress status = true →
     fst (poll_loop server p fuel 0 w0) = FailJson (timeout_message p)) ∧
  (∀ (fuel k : nat) (text : string),
     (k < fuel)%nat →
     (∀ j, (j < k)%nat → pending server p id (trace w0) j) →
     15 * Z.of_nat k < wait_timeout p →
     fetched server id (trace w0) k = Ok (JStr "Failed", JStr text) →
     fst (poll_loop server p fuel 0 w0) = FailJson ("Failed to create VM: " +:+ text)).
Proof.
  intros Hid.
  assert (Hw0 : polling id (trace w0) 0 w0) by done.
  split; [|split; [|split]].
  - intros fuel Hfuel.
    apply (poll_loop_terminates server p id (trace w0) fuel 0%nat w0 Hw0);
      [unfold polls in Hfuel; lia|].
    pose proof (polls_bound p). lia.
  - intros fuel Hfuel. split.
    + intros Hret.
      destruct (poll_loop_ret_inv server p id (trace w0) fuel 0%nat w0 Hw0 Hret)
        as (k & details & _ & Hpending & Htime & Hfetch).
      exists k, details. split; [|done]. intros j Hj. apply Hpending. lia.
    + intros (k & details & Hpending & Htime & Hfetch).
      apply (poll_loop_succeeds server p id (trace w0) k fuel w0 details); try done.
      pose proof (polls_cover p k Htime). lia.
  - intros fuel k status details Hfuel Hpending Htime Hfetch _.
    destruct (poll_loop_times_out server p id (trace w0) k fuel w0 status details)
      as (h & ->); done.
  - intros fuel k text Hfuel Hpending Htime Hfetch.
    by apply (poll_loop_rejected server p id (trace w0) k fuel w0 text).
Qed.

(** C9: within an iteration the timeout test comes before the status tests.
    At a poll [k] whose elapsed time [15 * k] has reached the timeout, the
    loop ends in [fail_json] with the timeout message whatever status was
    fetched there, [Successful] and [Failed] included, after [k + 1] status
    fetches.  In particular, with a timeout of at most 0 the loop ends with
    the timeout message at its first poll: the status was fetched exactly
    once and the loop never slept. *)
Theorem timeout_test_comes_first (server : list event → call → reply) (p : params)
    (w0 : world) (id : json) :
  request_id (self w0) = Some id →
  (∀ (fuel k : nat) (status details : json),
     (k < fuel)%nat →
     (∀ j, (j < k)%nat → pending server p id (trace w0) j) →
     wait_timeout p ≤ 15 * Z.of_nat k →
     fetched server id (trace w0) k = Ok (status, details) →
     ∃ h, poll_loop server p fuel 0 w0
          = (FailJson (timeout_message p),
             {| self := h;
                trace := Http (GetRequest id) :: Invoke MGetVmBuildStatus
                         :: polled id k (trace w0) |})) ∧
  (wait_timeout p ≤ 0 →
   ∀ (fuel : nat) (status details : json),
     (0 < fuel)%nat →
     fetched server id (trace w0) 0 = Ok (status, details) →
     poll_loop server p fuel 0 w0
     = (FailJson (timeout_message p),
        {| self := set_build_explanation details (set_build_status status (self w0));
           trace := Http (GetRequest id) :: Invoke MGetVmBuildStatus :: trace w0 |})).
Proof.
  intros Hid. split.
  - intros fuel k status details Hfuel Hpending Htime Hfetch.
    by apply (poll_loop_times_out server p id (trace w0) k fuel w0 status details).
  - intros Htime fuel status details Hfuel Hfetch.
    destruct fuel as [|fuel]; [lia|].
    cbn [poll_loop]. unfold mbind at 1, M_bind at 1.
    rewrite (poll_ok server p id 0 w0 status details Hid Hfetch). cbv zeta.
    by rewrite bool_decide_true by done.
Qed.

Ltac settle_pending :=
  split; [vm_compute; reflexivity|];
  eexists _, _; split; vm_compute; reflexivity.

Lemma polling_loop_outcomes_witness :
  request_id (self sample_created) = Some (JStr "req-7") ∧
  fst (poll_loop (scripted sample_script) sample_params 30 0 sample_created) = Ret () ∧
  fst (poll_loop (scripted (with_build stalled)) (sample_with_timeout 30) 30 0 sample_created)
  = FailJson "Failed to create VM in 30 seconds" ∧
  fst (poll_loop (scripted (with_build rejected)) sample_params 30 0 sample_created)
  = FailJson "Failed to create VM: Insufficient capacity".
Proof.
  assert (Hid : request_id (self sample_created) = Some (JStr "req-7")) by reflexivity.
  split; [exact Hid|]. split; [|split].
  - destruct (polling_loop_outcomes (scripted sample_script) sample_params sample_created
                (JStr "req-7") Hid) as (_ & Hsuccess & _ & _).
    apply (Hsuccess 30%nat); [vm_compute; lia|].
    exists 2%nat, (JStr "Request succeeded."). split; [|split].
    + intros j Hj. destruct j as [|[|j]]; [settle_pending|settle_pending|lia].
    + vm_compute. reflexivity.
    + vm_compute. reflexivity.
  - destruct (polling_loop_outcomes (scripted (with_build stalled)) (sample_with_timeout 30)
                sample_created (JStr "req-7") Hid) as (_ & _ & Htimeout & _).
    apply (Htimeout 30%nat 2%nat (JStr "In Progress") (JStr "")); [lia| |simpl; lia| |].
    + intros j Hj. destruct j as [|[|j]]; [settle_pending|settle_pending|lia].
    + vm_compute. reflexivity.
    + vm_compute. reflexivity.
  - destruct (polling_loop_outcomes (scripted (with_build rejected)) sample_params
                sample_created (JStr "req-7") Hid) as (_ & _ & _ & Hfailed).
    apply (Hfailed 30%nat 1%nat "Insufficient capacity"); [lia| | |].
    + intros j Hj. destruct j as [|j]; [settle_pending|lia].
    + vm_compute. reflexivity.
    + vm_compute. reflexivity.
Defined.

Lemma timeout_test_comes_first_witness :
  request_id (self sample_created) = Some (JStr "req-7") ∧
  poll_loop (scripted (with_build instant)) (sample_with_timeout 0) 30 0 sample_created
  = (FailJson "Failed to create VM in 0 seconds",
     {| self := set_build_explanation (JStr "Request succeeded.")
                  (set_build_status (JStr "Successful") (self sample_created));
        trace := Http (GetRequest (JStr "req-7")) :: Invoke MGetVmBuildStatus
                 :: trace sample_created |}) ∧
  ∃ h, poll_loop (scripted (with_build rejected)) (sample_with_timeout 15) 30 0 sample_created
       = (FailJson "Failed to create VM in 15 seconds",
          {| self := h;
             trace := Http (GetRequest (JStr "req-7")) :: Invoke MGetVmBuildStatus
                      :: polled (JStr "req-7") 1 (trace sample_created) |}).
Proof.
  assert (Hid : request_id (self sample_created) = Some (JStr "req-7")) by reflexivity.
  split; [exact Hid|]. split.
  - destruct (timeout_test_comes_first (scripted (with_build instant)) (sample_with_timeout 0)
                sample_created (JStr "req-7") Hid) as (_ & Hfirst).
    apply (Hfirst ltac:(simpl; lia) 30%nat); [lia|].
    vm_compute. reflexivity.
  - destruct (timeout_test_comes_first (scripted (with_build rejected)) (sample_with_timeout 15)
                sample_created (JStr "req-7") Hid) as (Hlate & _).
    apply (Hlate 30%nat 1%nat (JStr "Failed") (JStr "Insufficient capacity")); [lia| | |].
    + intros j Hj. destruct j as [|j]; [settle_pending|lia].
    + simpl. lia.
    + vm_compute. reflexivity.
Defined.

(** * Further properties *)

(** ** Template customization: scalar fields, frame and edge cases *)

Lemma setitem_ok_inv (j : json) (k : string) (v j' : json) :
  setitem j k v = Ok j' → ∃ m : gmap string json, j = JDict m ∧ j' = JDict (<[k := v]> m).
Proof. destruct j as [| | | | |m]; simpl; try discriminate. intros [= <-]. eauto. Qed.

Lemma append_ok_inv (j x j' : json) :
  append j x = Ok j' → ∃ l, j = JList l ∧ j' = JList (l ++ [x]).
Proof. destruct j as [| | | |l|]; simpl; try discriminate. intros [= <-]. eauto. Qed.

(** The loop changes the metadata at ['disks'] only, where it appends. *)
Lemma add_disks_frame (disk_meta_orig : json) (extra : list json) :
  ∀ (i : nat) (disk_id : json) (metadata : gmap string json) (metadata' : json),
    add_disks disk_meta_orig extra i disk_id (JDict metadata) = Ok metadata' →
    ∃ m' : gmap string json,
      metadata' = JDict m' ∧
      (∀ k, k ≠ "disks" → m' !! k = metadata !! k) ∧
      (extra = [] → m' = metadata) ∧
      (extra ≠ [] → ∃ disks new,
         metadata !! "disks" = Some (JList disks) ∧
         m' !! "disks" = Some (JList (disks ++ new)) ∧ length new = length extra).
Proof.
  induction extra as [|disk extra IH]; intros i disk_id metadata metadata' H.
  - injection H as <-. exists metadata. by repeat split.
  - cbn [add_disks] in H.
    repeat (apply res_bind_ok_inv in H as (? & ? & H)).
    match goal with Hd : getitem (JDict metadata) "disks" = Ok ?d |- _ =>
      apply getitem_ok_inv in Hd as (m0 & [= <-] & Hdisks) end.
    match goal with Ha : append _ _ = Ok _ |- _ =>
      apply append_ok_inv in Ha as (disks & -> & ->) end.
    match goal with Hs : setitem (JDict metadata) "disks" _ = Ok _ |- _ =>
      injection Hs as <- end.
    apply IH in H as (m' & -> & Hframe & Hnil & Hcons).
    exists m'. split; [done|]. split; [|split; [done|]].
    + intros k Hk. rewrite Hframe by done. by rewrite lookup_insert_ne.
    + intros _. exists disks. destruct extra as [|disk' extra].
      * rewrite (Hnil eq_refl). eexists [_]. by rewrite lookup_insert_eq.
      * destruct Hcons as (disks' & new & Hd' & Hm' & Hlen); [done|].
        rewrite lookup_insert_eq in Hd'. injection Hd' as <-.
        eexists (_ :: new). rewrite <- app_assoc in Hm'. split; [done|].
        split; [exact Hm'|]. simpl. by rewrite Hlen.
Qed.

(** What a successful customization has done to the metadata it reached. *)
Lemma customize_ok_inv (p : params) (template : gmap string json) (template' : json) :
  customize p template = Ok template' →
  ∃ data instance metadata metadata' : gmap string json,
    template !! "data" = Some (JDict data) ∧
    data !! blueprint_instance_id p = Some (JDict instance) ∧
    instance !! "data" = Some (JDict metadata) ∧
    template' = JDict (<["data" :=
                  JDict (<[blueprint_instance_id p :=
                    JDict (<["data" := JDict metadata']> instance)]> data)]> template) ∧
    (∀ k, k ≠ "disks" →
       metadata' !! k
       = (<["VirtualMachine.Network0.Name" := JStr (network_adapter p)]>
            (<["Hostname" := JStr (hostname p)]>
               (<["memory" := JInt (memory p)]>
                  (<["cpu" := JInt (cpu p)]> metadata)))) !! k) ∧
    (extra_disks p = [] → metadata' !! "disks" = metadata !! "disks").
Proof.
  unfold customize. intros H.
  apply res_bind_ok_inv in H as (j1 & H1 & H).
  apply res_bind_ok_inv in H as (j2 & H2 & H).
  apply res_bind_ok_inv in H as (j3 & H3 & H).
  apply getitem_ok_inv in H1 as (m0 & [= <-] & H1).
  apply getitem_ok_inv in H2 as (data & -> & H2).
  apply getitem_ok_inv in H3 as (instance & -> & H3).
  apply res_bind_ok_inv in H as (j4 & H4 & H).
  apply setitem_ok_inv in H4 as (metadata & -> & ->).
  cbn [setitem mbind res_bind] in H.
  apply res_bind_ok_inv in H as (j5 & H5 & H).
  cbn [setitem mbind res_bind] in H. injection H as <-.
  exists data, instance, metadata.
  case_bool_decide as Hlen.
  - repeat (apply res_bind_ok_inv in H5 as (? & ? & H5)).
    apply add_disks_frame in H5 as (m' & -> & Hframe & _ & _).
    exists m'. repeat split; try done.
    intros Hnil. rewrite Hnil in Hlen. simpl in Hlen. lia.
  - injection H5 as <-. eexists. repeat split; try done.
    intros _. by rewrite !lookup_insert_ne.
Qed.

(** X1: a customization that succeeds has put [cpu], [memory], [Hostname]
    and the network name into the metadata of the blueprint instance,
    whether or not the template had them; every other metadata entry except
    ['disks'], every other member of the instance, every other instance and
    every other top-level member of the template is as it was. *)
Theorem customize_assigns_scalars_only (p : params) (template : gmap string json)
    (template' : json) :
  customize p template = Ok template' →
  ∃ data instance metadata metadata' : gmap string json,
    template !! "data" = Some (JDict data) ∧
    data !! blueprint_instance_id p = Some (JDict instance) ∧
    instance !! "data" = Some (JDict metadata) ∧
    template' = JDict (<["data" :=
                  JDict (<[blueprint_instance_id p :=
                    JDict (<["data" := JDict metadata']> instance)]> data)]> template) ∧
    metadata' !! "cpu" = Some (JInt (cpu p)) ∧
    metadata' !! "memory" = Some (JInt (memory p)) ∧
    metadata' !! "Hostname" = Some (JStr (hostname p)) ∧
    metadata' !! "VirtualMachine.Network0.Name" = Some (JStr (network_adapter p)) ∧
    (∀ k, k ∉ assigned → metadata' !! k = metadata !! k).
Proof.
  intros H.
  apply customize_ok_inv in H
    as (data & instance & metadata & metadata' & H1 & H2 & H3 & -> & Hframe & _).
  exists data, instance, metadata, metadata'.
  repeat (split; [done|]).
  repeat split.
  - rewrite Hframe by done. by simplify_map_eq.
  - rewrite Hframe by done. by simplify_map_eq.
  - rewrite Hframe by done. by simplify_map_eq.
  - rewrite Hframe by done. by simplify_map_eq.
  - intros k Hk. unfold assigned in Hk. rewrite Hframe by set_solver.
    rewrite !lookup_insert_ne; [done|..]; intros <-; apply Hk; set_solver.
Qed.

Lemma customize_assigns_scalars_only_witness :
  ∃ data instance metadata metadata' : gmap string json,
    sample_template !! "data" = Some (JDict data) ∧
    data !! "Linux_Machine_1" = Some (JDict instance) ∧
    instance !! "data" = Some (JDict metadata) ∧
    sample_customized
    = JDict (<["data" :=
         JDict (<["Linux_Machine_1" :=
           JDict (<["data" := JDict metadata']> instance)]> data)]> sample_template) ∧
    metadata' !! "cpu" = Some (JInt 2) ∧
    metadata' !! "memory" = Some (JInt 4096) ∧
    metadata' !! "Hostname" = Some (JStr "web01") ∧
    metadata' !! "VirtualMachine.Network0.Name" = Some (JStr "vlan10") ∧
    (∀ k, k ∉ assigned → metadata' !! k = metadata !! k).
Proof.
  apply (customize_assigns_scalars_only sample_params sample_template sample_customized).
  vm_compute. reflexivity.
Defined.

Lemma metadata_of_inv (p : params) (template : gmap string json) (metadata : json) :
  metadata_of p (JDict template) = Ok metadata →
  ∃ data instance : gmap string json,
    template !! "data" = Some (JDict data) ∧
    data !! blueprint_instance_id p = Some (JDict instance) ∧
    instance !! "data" = Some metadata.
Proof.
  unfold metadata_of. intros H.
  apply res_bind_ok_inv in H as (j1 & H1 & H).
  apply res_bind_ok_inv in H as (j2 & H2 & H).
  apply getitem_ok_inv in H1 as (m0 & [= <-] & H1).
  apply getitem_ok_inv in H2 as (data & -> & H2).
  apply getitem_ok_inv in H as (instance & -> & H).
  eauto.
Qed.

(** X2: without extra disks the customization never looks at the disk list.
    It succeeds exactly when the metadata of the blueprint instance can be
    reached and is an object, also when the template has no ['disks'] entry,
    and reading the disk list afterwards gives what it gave before. *)
Theorem customize_without_extra_disks (p : params) (template : gmap string json) :
  extra_disks p = [] →
  ((∃ template', customize p template = Ok template') ↔
   (∃ metadata : gmap string json, metadata_of p (JDict template) = Ok (JDict metadata))) ∧
  (∀ template', customize p template = Ok template' →
     disks_of p template' = disks_of p (JDict template)).
Proof.
  intros Hnil. split; [split|].
  - intros (template' & H).
    apply customize_ok_inv in H
      as (data & instance & metadata & metadata' & H1 & H2 & H3 & _).
    exists metadata. unfold metadata_of. cbn [getitem mbind res_bind].
    rewrite H1. cbn [getitem mbind res_bind]. rewrite H2. cbn [getitem mbind res_bind].
    by rewrite H3.
  - intros (metadata & H).
    apply metadata_of_inv in H as (data & instance & H1 & H2 & H3).
    unfold customize. cbn [getitem mbind res_bind].
    rewrite H1. cbn [getitem mbind res_bind]. rewrite H2. cbn [getitem mbind res_bind].
    rewrite H3, Hnil. cbn [mbind res_bind setitem]. rewrite bool_decide_false by (simpl; lia).
    cbn [mbind res_bind]. eauto.
  - intros template' H.
    apply customize_ok_inv in H
      as (data & instance & metadata & metadata' & H1 & H2 & H3 & -> & _ & Hdisks).
    unfold disks_of. cbn [getitem mbind res_bind].
    rewrite H1. repeat (rewrite lookup_insert_eq; cbn [getitem mbind res_bind]).
    rewrite H2. cbn [getitem mbind res_bind]. rewrite H3. cbn [getitem mbind res_bind].
    by rewrite (Hdisks Hnil).
Qed.

Lemma customize_without_extra_disks_witness :
  ((∃ template', customize sample_without_disks sample_diskless_template = Ok template') ↔
   (∃ metadata : gmap string json,
      metadata_of sample_without_disks (JDict sample_diskless_template)
      = Ok (JDict metadata))) ∧
  (∀ template', customize sample_without_disks sample_diskless_template = Ok template' →
     disks_of sample_without_disks template'
     = disks_of sample_without_disks (JDict sample_diskless_template)).
Proof.
  apply (customize_without_extra_disks sample_without_disks sample_diskless_template).
  reflexivity.
Defined.

(** The loop over a prefix of requests that are all well formed. *)
Lemma add_disks_app (base base_data : gmap string json) (base_id : Z)
    (extra rest : list json) :
  base !! "data" = Some (JDict base_data) →
  Forall disk_request extra →
  ∀ (i : nat) (metadata : gmap string json) (disks : list json),
    metadata !! "disks" = Some (JList disks) →
    add_disks (JDict base) (extra ++ rest) i (JInt (base_id + Z.of_nat i)) (JDict metadata)
    = add_disks (JDict base) rest (i + length extra)
        (JInt (base_id + Z.of_nat (i + length extra)))
        (JDict (<["disks" :=
           JList (disks ++ spec_disks base base_data base_id i extra)]> metadata)).
Proof.
  intros Hbase Hextra. induction Hextra as [|e extra He _ IH]; intros i metadata disks Hdisks.
  - simpl. by rewrite app_nil_r, insert_id, Nat.add_0_r.
  - destruct He as (size_gb & mount_point & Hsize & Hmount).
    cbn [app add_disks add1 mbind res_bind]. rewrite Hsize, Hmount. cbn [mbind res_bind].
    rewrite (setitem2_dict _ base_data) by done. cbn [mbind res_bind].
    do 6 (erewrite setitem2_dict by apply lookup_insert_eq; cbn [mbind res_bind]).
    rewrite !insert_insert_eq.
    cbn [getitem]. rewrite Hdisks. cbn [mbind res_bind append setitem].
    replace (base_id + Z.of_nat i + 1) with (base_id + Z.of_nat (S i)) by lia.
    rewrite IH with (disks := disks ++ _) by apply lookup_insert_eq.
    rewrite insert_insert_eq, <- app_assoc. cbn [app spec_disks length].
    unfold spec_disk, field. rewrite Hsize, Hmount.
    replace (Z.of_nat i + 2) with (Z.of_nat (S i) + 1) by lia.
    replace (Z.of_nat i + 1) with (Z.of_nat (S i)) by lia.
    by replace (S i + length extra)%nat with (i + S (length extra))%nat by lia.
Qed.

(** With at least one request and a disk list that starts with a well formed
    base disk, the customization is the loop followed by the write-back. *)
Lemma customize_reaches_loop (p : params) (template base base_data : gmap string json)
    (others : list json) (base_id : Z) :
  disks_of p (JDict template) = Ok (JList (JDict base :: others)) →
  base !! "data" = Some (JDict base_data) →
  base_data !! "id" = Some (JInt base_id) →
  extra_disks p ≠ [] →
  ∃ data instance metadata : gmap string json,
    metadata !! "disks" = Some (JList (JDict base :: others)) ∧
    customize p template
    = (metadata' ← add_disks (JDict base) (extra_disks p) 0 (JInt base_id) (JDict metadata);
       instance' ← setitem (JDict instance) "data" metadata';
       data' ← setitem (JDict data) (blueprint_instance_id p) instance';
       Ok (JDict (<["data" := data']> template))).
Proof.
  intros Hdisks Hbase Hid Hextra.
  apply disks_of_inv in Hdisks as (data & instance & metadata & H1 & H2 & H3 & H4).
  exists data, instance.
  eexists (<["VirtualMachine.Network0.Name" := JStr (network_adapter p)]>
             (<["Hostname" := JStr (hostname p)]>
                (<["memory" := JInt (memory p)]> (<["cpu" := JInt (cpu p)]> metadata)))).
  split; [by rewrite !lookup_insert_ne|].
  unfold customize. cbn [getitem mbind res_bind setitem].
  rewrite H1. cbn [mbind res_bind getitem]. rewrite H2. cbn [mbind res_bind getitem].
  rewrite H3. cbn [mbind res_bind setitem].
  rewrite bool_decide_true by (destruct (extra_disks p); simpl; [done|lia]).
  cbn [getitem]. rewrite !lookup_insert_ne by done. rewrite H4.
  cbn [mbind res_bind getitem0 getitem]. rewrite Hbase.
  cbn [mbind res_bind getitem]. rewrite Hid. reflexivity.
Qed.

(** X3: the extra disks are copies of the first disk of the template and are
    numbered from the request index alone.  When the template already
    carries further disks, they stay where they are, unchanged, the [N] new
    disks follow them, and new disk [k] still gets the label
    [Hard disk k+1], volume id [k] and id [base_id + k], whatever the
    existing disks use. *)
Theorem customize_appends_after_existing_disks (p : params)
    (template base base_data : gmap string json) (others : list json) (base_id : Z) :
  disks_of p (JDict template) = Ok (JList (JDict base :: others)) →
  base !! "data" = Some (JDict base_data) →
  base_data !! "id" = Some (JInt base_id) →
  Forall disk_request (extra_disks p) →
  ∃ (template' : json) (new : list json),
    customize p template = Ok template' ∧
    disks_of p template' = Ok (JList (JDict base :: others ++ new)) ∧
    length new = length (extra_disks p) ∧
    ∀ k : nat, (1 ≤ k ≤ length (extra_disks p))%nat →
      ∃ e size_gb mount_point disk,
        extra_disks p !! (k - 1)%nat = Some e ∧
        getitem e "size_gb" = Ok size_gb ∧
        getitem e "mount_point" = Ok mount_point ∧
        new !! (k - 1)%nat = Some disk ∧
        extra_disk_of base base_data base_id k size_gb mount_point disk.
Proof.
  intros Hdisks Hbase Hid Hextra.
  exists (match customize p template with Ok t => t | Err _ => JNull end),
         (spec_disks base base_data base_id 0 (extra_disks p)).
  assert (Hrun : ∃ template',
             customize p template = Ok template' ∧
             disks_of p template'
             = Ok (JList (JDict base :: others
                          ++ spec_disks base base_data base_id 0 (extra_disks p)))).
  { destruct (decide (extra_disks p = [])) as [Hnil|Hcons].
    - pose proof (customize_without_extra_disks p template Hnil) as [[_ Hok] Hsame].
      destruct Hok as (template' & Hok).
      { apply disks_of_inv in Hdisks as (data & instance & metadata & H1 & H2 & H3 & _).
        exists metadata. unfold metadata_of. cbn [getitem mbind res_bind].
        rewrite H1. cbn [getitem mbind res_bind]. rewrite H2. cbn [getitem mbind res_bind].
        by rewrite H3. }
      exists template'. split; [done|].
      rewrite (Hsame template' Hok), Hdisks, Hnil. simpl. by rewrite app_nil_r.
    - destruct (customize_reaches_loop p template base base_data others base_id
                  Hdisks Hbase Hid Hcons)
        as (data & instance & metadata & Hm & ->).
      pose proof (add_disks_spec base base_data base_id (extra_disks p) Hbase Hextra
                    0%nat metadata (JDict base :: others) Hm) as Hadd.
      change (Z.of_nat 0) with 0 in Hadd. rewrite Z.add_0_r in Hadd. rewrite Hadd.
      cbn [mbind res_bind setitem]. eexists. split; [reflexivity|].
      unfold disks_of. cbn [getitem mbind res_bind].
      by repeat (rewrite lookup_insert_eq; cbn [getitem mbind res_bind]). }
  destruct Hrun as (template' & -> & Hdisks').
  split; [done|]. split; [done|]. split; [apply spec_disks_length|].
  intros k [Hk1 Hk2].
  destruct (lookup_lt_is_Some_2 (extra_disks p) (k - 1)) as [e He]; [lia|].
  pose proof (proj1 (Forall_lookup _ _) Hextra _ _ He) as (size_gb & mount_point & Hs & Hm).
  exists e, size_gb, mount_point. eexists. split; [done|]. split; [done|]. split; [done|].
  split.
  - rewrite (spec_disks_lookup base base_data base_id (extra_disks p) 0 (k - 1) e He).
    reflexivity.
  - unfold field. rewrite Hs, Hm.
    replace (S (0 + (k - 1))) with k by lia. apply spec_disk_is_extra_disk.
Qed.

Lemma customize_appends_after_existing_disks_witness :
  ∃ (template' : json) (new : list json),
    customize sample_params sample_two_disk_template = Ok template' ∧
    disks_of sample_params template'
    = Ok (JList (JDict sample_base :: [sample_second_disk] ++ new)) ∧
    length new = 2%nat ∧
    ∀ k : nat, (1 ≤ k ≤ 2)%nat →
      ∃ e size_gb mount_point disk,
        extra_disks sample_params !! (k - 1)%nat = Some e ∧
        getitem e "size_gb" = Ok size_gb ∧
        getitem e "mount_point" = Ok mount_point ∧
        new !! (k - 1)%nat = Some disk ∧
        extra_disk_of sample_base sample_base_data 1000 k size_gb mount_point disk.
Proof.
  apply (customize_appends_after_existing_disks sample_params sample_two_disk_template
           sample_base sample_base_data [sample_second_disk] 1000).
  - vm_compute. reflexivity.
  - vm_compute. reflexivity.
  - vm_compute. reflexivity.
  - repeat constructor; eexists _, _; split; vm_compute; reflexivity.
Defined.

(** X5: one request without [size_gb] or without [mount_point], anywhere in
    the list, aborts the whole customization: the [KeyError] leaves
    [customize_template] as it is, and none of the disks requested before
    it is kept, the helper still holds the fetched response. *)
Theorem malformed_disk_request_aborts (p : params) (w : world)
    (template base base_data : gmap string json) (others good rest : list json)
    (bad : json) (base_id : Z) (e : exn) :
  template_json (self w) = Some (TResponse (Ok (JDict template))) →
  disks_of p (JDict template) = Ok (JList (JDict base :: others)) →
  base !! "data" = Some (JDict base_data) →
  base_data !! "id" = Some (JInt base_id) →
  extra_disks p = good ++ bad :: rest →
  Forall disk_request good →
  (getitem bad "size_gb" = Err e ∨
   (∃ size_gb, getitem bad "size_gb" = Ok size_gb) ∧ getitem bad "mount_point" = Err e) →
  customize_template p w
  = (Raise e, {| self := self w; trace := Invoke MCustomizeTemplate :: trace w |}).
Proof.
  intros Hslot Hdisks Hbase Hid Hextra Hgood Hbad.
  apply (customize_template_raises p w template e Hslot).
  destruct (customize_reaches_loop p template base base_data others base_id
              Hdisks Hbase Hid) as (data & instance & metadata & Hm & ->).
  { rewrite Hextra. by destruct good. }
  rewrite Hextra.
  pose proof (add_disks_app base base_data base_id good (bad :: rest) Hbase Hgood
                0%nat metadata (JDict base :: others) Hm) as Happ.
  change (Z.of_nat 0) with 0 in Happ. rewrite Z.add_0_r in Happ. rewrite Happ.
  cbn [add_disks add1 mbind res_bind].
  destruct Hbad as [Hsize|[[size_gb Hsize] Hmount]]; rewrite Hsize; [done|].
  cbn [mbind res_bind].
  rewrite (setitem2_dict _ base_data) by done. cbn [mbind res_bind].
  do 5 (erewrite setitem2_dict by apply lookup_insert_eq; cbn [mbind res_bind]).
  by rewrite Hmount.
Qed.

Lemma malformed_disk_request_aborts_witness :
  customize_template sample_broken_requests sample_fetched
  = (Raise (KeyError "'mount_point'"),
     {| self := self sample_fetched;
        trace := Invoke MCustomizeTemplate :: trace sample_fetched |}).
Proof.
  apply (malformed_disk_request_aborts sample_broken_requests sample_fetched
           sample_template sample_base sample_base_data [] [sample_disk_request 60 "/mnt1"]
           [sample_disk_request 20 "/mnt3"] (obj [("size_gb", JInt 80)]) 1000
           (KeyError "'mount_point'")).
  - reflexivity.
  - vm_compute. reflexivity.
  - vm_compute. reflexivity.
  - vm_compute. reflexivity.
  - reflexivity.
  - repeat constructor; eexists _, _; split; vm_compute; reflexivity.
  - right. split; [eexists|]; vm_compute; reflexivity.
Defined.

(** ** Authentication and inventory lookup: further behaviour *)

Lemma get_auth_err server p e :
  token server p = Err e →
  get_auth server p {| self := new_helper; trace := [] |}
  = (FailJson ("Failed to get bearer token: " +:+ str_exn e),
     {| self := new_helper; trace := authenticated p |}).
Proof.
  unfold token, get_auth, auth_call. intros H. exec.
  destruct (server _ _) as [msg|[body|e']].
  - by injection H as <-.
  - by rewrite H.
  - by injection H as <-.
Qed.

(** X6: when the token request is refused, its answer is not JSON, or the
    answer has no ['id'], the run ends in [fail_json] with the bearer token
    message carrying the exception text, in check mode and outside it, and
    the token request is the only call it has issued: the inventory is
    never queried. *)
Theorem failed_authentication_stops_run (server : list event → call → reply)
    (p : params) (check_mode : bool) (fuel : nat) (e : exn) :
  token server p = Err e →
  run server p check_mode fuel
  = (FailJson ("Failed to get bearer token: " +:+ str_exn e),
     {| self := new_helper; trace := authenticated p |}).
Proof.
  intros Htoken. unfold run, run_module.
  unfold mbind at 1, M_bind at 1. by rewrite (get_auth_err server p e Htoken).
Qed.

Lemma failed_authentication_stops_run_witness :
  run (scripted (with_tokens (ok (obj [("error", JStr "bad credentials")]))))
    sample_params false 30
  = (FailJson "Failed to get bearer token: 'id'",
     {| self := new_helper; trace := authenticated sample_params |}).
Proof.
  apply (failed_authentication_stops_run
           (scripted (with_tokens (ok (obj [("error", JStr "bad credentials")]))))
           sample_params false 30 (KeyError "'id'")).
  vm_compute. reflexivity.
Defined.

(** X7: a lookup that finds one resource and all it needs returns normally
    after exactly two requests, the inventory listing and the resources of
    the machine's request.  It overwrites [request_id] by the request id of
    the inventory entry, and records the destroy id and the address; every
    other attribute of the helper is as before. *)
Theorem get_vm_records_machine (server : list event → call → reply) (p : params)
    (w : world) (listing resources : res json)
    (vm id meta_dict destroy entries vm_data address : json) :
  server (Invoke MGetVm :: trace w) GetVirtualResources = Response listing →
  matching_vms listing (hostname p) = Ok [vm] →
  getitem vm "requestId" = Ok id →
  server (Http GetVirtualResources :: Invoke MGetVm :: trace w) (GetRequestResources id)
  = Response resources →
  infrastructure_resource resources = Ok meta_dict →
  getitem meta_dict "id" = Ok destroy →
  (data ← getitem meta_dict "resourceData"; getitem data "entries") = Ok entries →
  entry_with_key entries "ip_address" = Ok vm_data →
  (value ← getitem vm_data "value"; getitem value "value") = Ok address →
  get_vm server p w
  = (Ret (),
     {| self := set_ip address (set_destroy_id destroy (set_request_id id (self w)));
        trace := Http (GetRequestResources id) :: Http GetVirtualResources
                 :: Invoke MGetVm :: trace w |}).
Proof.
  intros Hlisting Hvms Hid Hresources Hmeta Hdestroy Hentries Hentry Haddress.
  apply res_bind_ok_inv in Hentries as (data & Hdata & Hentries).
  unfold get_vm. exec. rewrite Hlisting, Hvms. simpl.
  rewrite Hid, Hresources, Hmeta, Hdestroy, Hdata, Hentries, Hentry.
  cbv [mbind res_bind] in Haddress. by rewrite Haddress.
Qed.

Lemma get_vm_records_machine_witness :
  get_vm (scripted with_address) sample_params sample_authenticated
  = (Ret (),
     {| self := set_ip (JStr "10.0.0.5")
                  (set_destroy_id (JStr "res-9")
                     (set_request_id (JStr "req-7") (self sample_authenticated)));
        trace := Http (GetRequestResources (JStr "req-7")) :: Http GetVirtualResources
                 :: Invoke MGetVm :: trace sample_authenticated |}).
Proof.
  apply (get_vm_records_machine (scripted with_address) sample_params sample_authenticated
           (Ok (sample_inventory [sample_vm]))
           (Ok (sample_resources [sample_entry "MachineName" (JStr "web01");
                                  sample_entry "ip_address" (JStr "10.0.0.5")]))
           sample_vm (JStr "req-7")
           (sample_infrastructure [sample_entry "MachineName" (JStr "web01");
                                   sample_entry "ip_address" (JStr "10.0.0.5")])
           (JStr "res-9")
           (JList [sample_entry "MachineName" (JStr "web01");
                   sample_entry "ip_address" (JStr "10.0.0.5")])
           (sample_entry "ip_address" (JStr "10.0.0.5")) (JStr "10.0.0.5"));
    vm_compute; reflexivity.
Defined.

(** ** Scanning with comprehensions *)

Lemma comprehension_filter (test : json → res bool) (l : list json) :
  Forall (λ x, ∃ b, test x = Ok b) l →
  comprehension test l
  = Ok (List.filter (λ x, match test x with Ok b => b | Err _ => false end) l).
Proof.
  induction 1 as [|x l [b Hb] _ IH]; [done|].
  simpl. rewrite Hb, IH. simpl. by destruct b.
Qed.

Lemma comprehension_err (test : json → res bool) (pre post : list json) (bad : json)
    (e : exn) :
  Forall (λ x, ∃ b, test x = Ok b) pre →
  test bad = Err e →
  comprehension test (pre ++ bad :: post) = Err e.
Proof.
  intros Hpre Hbad. induction Hpre as [|x pre [b Hb] _ IH]; simpl.
  - by rewrite Hbad.
  - by rewrite Hb, IH.
Qed.

(** X8: among the resource-data entries the first one with the wanted key
    is taken: entries before it with other keys and any entries after it,
    duplicates of the key included, do not change the result, as long as
    each of them has a ['key'] at all. *)
Theorem entry_with_key_takes_first (pre post : list json) (entry : json) (key : string) :
  Forall (λ element, ∃ k, getitem element "key" = Ok k ∧ eq_str k key = false) pre →
  getitem entry "key" = Ok (JStr key) →
  Forall (λ element, ∃ k, getitem element "key" = Ok k) post →
  entry_with_key (JList (pre ++ entry :: post)) key = Ok entry.
Proof.
  intros Hpre Hentry Hpost. unfold entry_with_key. cbn [iter mbind res_bind].
  rewrite comprehension_filter.
  - cbn [mbind res_bind]. rewrite List.filter_app. simpl. rewrite Hentry. simpl.
    rewrite bool_decide_true by done.
    replace (List.filter _ pre) with (@nil json); [done|].
    induction Hpre as [|x pre (k & Hk & Hne) _ IH]; [done|].
    simpl. rewrite Hk. simpl. by rewrite Hne.
  - apply Forall_app. split; [|constructor].
    + eapply Forall_impl; [exact Hpre|]. intros x (k & Hk & _). rewrite Hk. simpl. eauto.
    + rewrite Hentry. simpl. eauto.
    + eapply Forall_impl; [exact Hpost|]. intros x (k & Hk). rewrite Hk. simpl. eauto.
Qed.

Lemma entry_with_key_takes_first_witness :
  entry_with_key
    (JList ([sample_entry "MachineName" (JStr "web01")]
            ++ sample_entry "ip_address" (JStr "10.0.0.5")
            :: [sample_entry "ip_address" (JStr "10.0.0.6")])) "ip_address"
  = Ok (sample_entry "ip_address" (JStr "10.0.0.5")).
Proof.
  apply (entry_with_key_takes_first [sample_entry "MachineName" (JStr "web01")]
           [sample_entry "ip_address" (JStr "10.0.0.6")]
           (sample_entry "ip_address" (JStr "10.0.0.5")) "ip_address").
  - repeat constructor. eexists. split; vm_compute; reflexivity.
  - vm_compute. reflexivity.
  - repeat constructor. eexists. vm_compute. reflexivity.
Defined.

(** X9: the lookup keeps exactly the resources whose ['name'] is the
    requested hostname, character for character, in listing order; a name
    that is not a string never matches.  This needs every resource of the
    listing to have a ['name']. *)
Theorem matching_vms_exact (body : json) (items : list json) (hostname : string) :
  getitem body "content" = Ok (JList items) →
  Forall (λ i, ∃ name, getitem i "name" = Ok name) items →
  matching_vms (Ok body) hostname = Ok (List.filter (named hostname) items) ∧
  Forall (λ vm, getitem vm "name" = Ok (JStr hostname))
         (List.filter (named hostname) items).
Proof.
  intros Hcontent Hnames. split.
  - unfold matching_vms. cbn [mbind res_bind]. rewrite Hcontent. cbn [mbind res_bind iter].
    rewrite comprehension_filter.
    + f_equal. apply List.filter_ext. intros i. unfold named.
      by destruct (getitem i "name").
    + eapply Forall_impl; [exact Hnames|]. intros i [name Hname].
      rewrite Hname. simpl. eauto.
  - apply Forall_forall. intros vm Hvm.
    apply list_elem_of_In, List.filter_In in Hvm as [_ Hvm]. unfold named in Hvm.
    destruct (getitem vm "name") as [name|]; [|done].
    by apply eq_str_true in Hvm as ->.
Qed.

Lemma matching_vms_exact_witness :
  matching_vms
    (Ok (sample_inventory [obj [("name", JStr "WEB01"); ("requestId", JStr "req-1")];
                           sample_vm;
                           obj [("name", JInt 7); ("requestId", JStr "req-2")]])) "web01"
  = Ok (List.filter (named "web01")
          [obj [("name", JStr "WEB01"); ("requestId", JStr "req-1")]; sample_vm;
           obj [("name", JInt 7); ("requestId", JStr "req-2")]]) ∧
  Forall (λ vm, getitem vm "name" = Ok (JStr "web01"))
         (List.filter (named "web01")
            [obj [("name", JStr "WEB01"); ("requestId", JStr "req-1")]; sample_vm;
             obj [("name", JInt 7); ("requestId", JStr "req-2")]]).
Proof.
  apply (matching_vms_exact
           (sample_inventory [obj [("name", JStr "WEB01"); ("requestId", JStr "req-1")];
                              sample_vm;
                              obj [("name", JInt 7); ("requestId", JStr "req-2")]])
           [obj [("name", JStr "WEB01"); ("requestId", JStr "req-1")]; sample_vm;
            obj [("name", JInt 7); ("requestId", JStr "req-2")]] "web01").
  - vm_compute. reflexivity.
  - repeat constructor; eexists; vm_compute; reflexivity.
Defined.

(** X10: the comprehension over the inventory tests every resource.  One
    resource without a ['name'] anywhere in the listing makes [get_vm] end
    in [fail_json] with the lookup message, also when the requested
    hostname is listed before it; nothing is recorded. *)
Theorem nameless_resource_fails_lookup (server : list event → call → reply) (p : params)
    (w : world) (body : json) (pre post : list json) (bad : json) (e : exn) :
  server (Invoke MGetVm :: trace w) GetVirtualResources = Response (Ok body) →
  getitem body "content" = Ok (JList (pre ++ bad :: post)) →
  Forall (λ i, ∃ name, getitem i "name" = Ok name) pre →
  getitem bad "name" = Err e →
  get_vm server p w
  = (FailJson ("Failed to get VM details for '" +:+ hostname p +:+ "': " +:+ str_exn e),
     {| self := self w;
        trace := Http GetVirtualResources :: Invoke MGetVm :: trace w |}).
Proof.
  intros Hserver Hcontent Hpre Hbad.
  assert (Hm : matching_vms (Ok body) (hostname p) = Err e).
  { unfold matching_vms. cbn [mbind res_bind]. rewrite Hcontent. cbn [mbind res_bind iter].
    apply comprehension_err; [|by rewrite Hbad].
    eapply Forall_impl; [exact Hpre|]. intros i [name Hname]. rewrite Hname. simpl. eauto. }
  unfold get_vm. exec. by rewrite Hserver, Hm.
Qed.

Lemma nameless_resource_fails_lookup_witness :
  get_vm (scripted (with_inventory
                      (ok (sample_inventory [sample_vm; obj [("requestId", JStr "req-3")]]))))
    sample_params sample_authenticated
  = (FailJson "Failed to get VM details for 'web01': 'name'",
     {| self := self sample_authenticated;
        trace := Http GetVirtualResources :: Invoke MGetVm :: trace sample_authenticated |}).
Proof.
  apply (nameless_resource_fails_lookup
           (scripted (with_inventory
                        (ok (sample_inventory [sample_vm; obj [("requestId", JStr "req-3")]]))))
           sample_params sample_authenticated
           (sample_inventory [sample_vm; obj [("requestId", JStr "req-3")]])
           [sample_vm] [] (obj [("requestId", JStr "req-3")]) (KeyError "'name'")).
  - reflexivity.
  - vm_compute. reflexivity.
  - repeat constructor. eexists. vm_compute. reflexivity.
  - vm_compute. reflexivity.
Defined.

(** ** The catalog lookup: a malformed item *)

Lemma catalog_loop_app (pre rest : list json) (entries : list (string * json)) :
  Forall2 catalog_entry pre entries →
  ∀ catalog_dict : gmap string json,
    catalog_loop (pre ++ rest) catalog_dict
    = catalog_loop rest (foldl (λ d entry, <[entry.1 := entry.2]> d) catalog_dict entries).
Proof.
  induction 1 as [|item entry pre entries (ci & Hci & Hname & Hid) _ IH];
    intros catalog_dict; [done|].
  simpl. rewrite Hci. simpl. rewrite Hname, Hid. simpl. apply IH.
Qed.

(** X11: the catalog dictionary is built from the whole listing before the
    blueprint is looked up.  One listing element without a ['catalogItem']
    makes [get_catalog_id] end in [fail_json], also when an entry with the
    requested name comes before it; no catalog id is stored. *)
Theorem malformed_catalog_item_fails_lookup (server : list event → call → reply)
    (p : params) (w : world) (body : json) (pre post : list json) (bad : json)
    (entries : list (string * json)) (e : exn) :
  server (Invoke MGetCatalogId :: trace w) GetEntitledCatalogItems = Response (Ok body) →
  getitem body "content" = Ok (JList (pre ++ bad :: post)) →
  Forall2 catalog_entry pre entries →
  getitem bad "catalogItem" = Err e →
  get_catalog_id server p w
  = (FailJson ("Failed to get catalog ID for blueprint " +:+ blueprint_name p
               +:+ ": " +:+ str_exn e),
     {| self := self w;
        trace := Http GetEntitledCatalogItems :: Invoke MGetCatalogId :: trace w |}).
Proof.
  intros Hserver Hcontent Hpre Hbad.
  unfold get_catalog_id. exec. rewrite Hserver, Hcontent. cbn [iter].
  rewrite (catalog_loop_app pre (bad :: post) entries Hpre).
  cbn [catalog_loop]. by rewrite Hbad.
Qed.

Lemma malformed_catalog_item_fails_lookup_witness :
  get_catalog_id
    (scripted (with_catalog
                 (ok (obj [("content", JList [sample_catalog_item "Linux" "cat-2";
                                              obj [("name", JStr "orphan")]])]))))
    sample_params sample_authenticated
  = (FailJson "Failed to get catalog ID for blueprint Linux: 'catalogItem'",
     {| self := self sample_authenticated;
        trace := Http GetEntitledCatalogItems :: Invoke MGetCatalogId
                 :: trace sample_authenticated |}).
Proof.
  apply (malformed_catalog_item_fails_lookup
           (scripted (with_catalog
                        (ok (obj [("content", JList [sample_catalog_item "Linux" "cat-2";
                                                     obj [("name", JStr "orphan")]])]))))
           sample_params sample_authenticated
           (obj [("content", JList [sample_catalog_item "Linux" "cat-2";
                                    obj [("name", JStr "orphan")]])])
           [sample_catalog_item "Linux" "cat-2"] [] (obj [("name", JStr "orphan")])
           [("Linux", JStr "cat-2")] (KeyError "'catalogItem'")).
  - reflexivity.
  - vm_compute. reflexivity.
  - repeat constructor. eexists. (split; [|split]); vm_compute; reflexivity.
  - vm_compute. reflexivity.
Defined.

(** ** The state lookup *)

(** X12: [get_vm_state] issues no request unless the helper holds a request
    id that is not [None] and a destroy id.  Without them it ends in
    [fail_json] right after being entered: with the missing-attribute text
    when [request_id] was never assigned, with the no-request-id message
    when it is [None], and with the missing-attribute text for [destroy_id]
    when a machine was requested but no lookup has found it since. *)
Theorem get_vm_state_needs_ids (server : list event → call → reply) (p : params)
    (w : world) :
  request_id (self w) = None ∨ request_id (self w) = Some JNull ∨ destroy_id (self w) = None →
  get_vm_state server p w
  = (FailJson
       match request_id (self w) with
       | None =>
           "Failed to get VM state information for '" +:+ hostname p
           +:+ "': 'VRAHelper' object has no attribute 'request_id'"
       | Some id =>
           if is_none id then "No request ID to request VM state information for"
           else "Failed to get VM state information for '" +:+ hostname p
                +:+ "': 'VRAHelper' object has no attribute 'destroy_id'"
       end,
     {| self := self w; trace := Invoke MGetVmState :: trace w |}).
Proof.
  intros H. unfold get_vm_state. exec. destruct w as [h t]. simpl in *.
  destruct (request_id h) as [id|]; [|done].
  destruct (is_none id) eqn:Hid; [done|].
  destruct H as [H|[H|H]]; [done| |].
  - injection H as ->. discriminate.
  - by rewrite H.
Qed.

Lemma get_vm_state_needs_ids_witness :
  get_vm_state (scripted sample_script) sample_params sample_vanished
  = (FailJson ("Failed to get VM state information for 'web01': "
               +:+ "'VRAHelper' object has no attribute 'destroy_id'"),
     {| self := self sample_vanished; trace := Invoke MGetVmState :: trace sample_vanished |}).
Proof.
  apply (get_vm_state_needs_ids (scripted sample_script) sample_params sample_vanished).
  right. right. reflexivity.
Defined.

(** What a state lookup that returns has read and written. *)
Lemma get_vm_state_ret_inv server p w w' :
  get_vm_state server p w = (Ret (), w') →
  ∃ status id,
    destroy_id (self w) = Some id ∧
    w' = {| self := set_state status (self w);
            trace := Http (GetResource id) :: Invoke MGetVmState :: trace w |}.
Proof.
  unfold get_vm_state. exec. destruct w as [h t]. simpl.
  destruct (request_id h) as [rid|]; [|done].
  destruct (is_none rid); [done|].
  destruct (destroy_id h) as [id|]; [|done].
  destruct (server _ _) as [msg|[body|e]]; try done.
  destruct (getitem body "resourceData") as [data|]; [|done].
  destruct (getitem data "entries") as [entries|]; [|done].
  destruct (entry_with_key entries "MachineStatus") as [meta_dict|]; [|done].
  destruct (getitem meta_dict "value") as [value|]; [|done].
  destruct (getitem value "value") as [status|]; [|done].
  intros [= <-]. eauto.
Qed.

(** X13: outside check mode, when the lookup has recorded an address and the
    state lookup returns, the module exits with [changed] false, the
    recorded destroy id and address, the state just read, and the requested
    hostname; after the lookup it has issued one request only, for the
    resource with the destroy id. *)
Theorem existing_machine_is_reported (server : list event → call → reply) (p : params)
    (fuel : nat) (w1 w2 : world) :
  looked_up server p = (Ret (), w1) →
  is_none (ip (self w1)) = false →
  get_vm_state server p w1 = (Ret (), w2) →
  ∃ status id,
    destroy_id (self w1) = Some id ∧
    state (self w2) = Some status ∧
    trace w2 = Http (GetResource id) :: Invoke MGetVmState :: trace w1 ∧
    run server p false fuel
    = (ExitJson {| result_changed := false; result_failed := false;
                   result_state := status; result_destroy_id := id;
                   result_ip := ip (self w1); result_hostname := JStr (hostname p) |},
       w2).
Proof.
  intros Hlook Hip Hstate.
  pose proof (get_vm_state_ret_inv server p w1 w2 Hstate) as (status & id & Hid & ->).
  exists status, id. split; [done|]. split; [done|]. split; [done|].
  rewrite (run_after_lookup server p false fuel w1 Hlook).
  exec. rewrite Hip, Hstate. destruct w1 as [h t]. simpl in *. by rewrite Hid.
Qed.

Lemma existing_machine_is_reported_witness :
  ∃ status id,
    destroy_id (self (snd (looked_up (scripted with_address) sample_params))) = Some id ∧
    state (self (snd (get_vm_state (scripted with_address) sample_params
                        (snd (looked_up (scripted with_address) sample_params)))))
    = Some status ∧
    trace (snd (get_vm_state (scripted with_address) sample_params
                  (snd (looked_up (scripted with_address) sample_params))))
    = Http (GetResource id) :: Invoke MGetVmState
      :: trace (snd (looked_up (scripted with_address) sample_params)) ∧
    run (scripted with_address) sample_params false 30
    = (ExitJson {| result_changed := false; result_failed := false;
                   result_state := status; result_destroy_id := id;
                   result_ip := ip (self (snd (looked_up (scripted with_address)
                                                 sample_params)));
                   result_hostname := JStr "web01" |},
       snd (get_vm_state (scripted with_address) sample_params
              (snd (looked_up (scripted with_address) sample_params)))).
Proof.
  apply (existing_machine_is_reported (scripted with_address) sample_params 30).
  - vm_compute. reflexivity.
  - vm_compute. reflexivity.
  - vm_compute. reflexivity.
Defined.

(** ** Trace growth, whatever the outcome *)

Lemma grows_bind {A B} P (m : M A) (f : A → M B) :
  grows P m → (∀ a, grows P (f a)) → grows P (m ≫= f).
Proof.
  intros Hm Hf w. unfold mbind, M_bind. specialize (Hm w).
  destruct (m w) as [o w1]. simpl in Hm.
  destruct o as [a| | | | |]; try done.
  eapply adds_trans; [exact Hm|apply Hf].
Qed.

Lemma grows_mild {A} P (m : M A) : mild_on P m → grows P m.
Proof. intros H w. apply H. Qed.

Lemma grows_settled {A} P (m : M A) : settled_on P m → grows P m.
Proof. intros H w. apply H. Qed.

Lemma grows_still {A} P (o : outcome A) : grows P (λ w, (o, w)).
Proof. intros w. apply adds_refl. Qed.

Lemma get_vm_build_status_settled_on P server :
  P (Invoke MGetVmBuildStatus) = true → (∀ id, P (Http (GetRequest id)) = true) →
  settled_on P (get_vm_build_status server).
Proof.
  intros H1 H2. unfold get_vm_build_status, invoke.
  apply settled_bind; [by apply settled_record|intros _].
  apply settled_try. mild_steps.
Qed.

Lemma grows_poll P server p timer :
  P (Invoke MGetVmBuildStatus) = true → (∀ id, P (Http (GetRequest id)) = true) →
  grows P (poll server p timer).
Proof.
  intros H1 H2. unfold poll.
  apply grows_bind; [by apply grows_settled, get_vm_build_status_settled_on|intros _].
  case_bool_decide; [apply grows_still|].
  apply grows_bind; [apply grows_mild, mild_attr|intros status].
  destruct (eq_str status "Failed").
  - apply grows_bind; [apply grows_mild, mild_attr|intros explanation].
    apply grows_bind; [|intros text; apply grows_still].
    destruct explanation as [|[]| | | |]; apply grows_still.
  - destruct (eq_str status "Successful"); apply grows_still.
Qed.

Lemma grows_poll_loop P server p fuel :
  P (Invoke MGetVmBuildStatus) = true → (∀ id, P (Http (GetRequest id)) = true) →
  P (Sleep 15) = true →
  ∀ timer, grows P (poll_loop server p fuel timer).
Proof.
  intros H1 H2 H3. induction fuel as [|fuel IH]; intros timer; [apply grows_still|].
  cbn [poll_loop]. apply grows_bind; [by apply grows_poll|intros [|]].
  - apply grows_still.
  - apply grows_bind; [|intros _; apply IH].
    by apply grows_mild, mild_record.
Qed.

(** ** The polling loop never oversleeps *)

Lemma slept_app (t1 t2 : list event) : slept (t1 ++ t2) = slept t1 + slept t2.
Proof.
  induction t1 as [|ev t1 IH]; [done|].
  destruct ev as [c|m|seconds]; simpl; rewrite IH; lia.
Qed.

Lemma poll_continues_before_timeout server p timer w (b : bool) :
  fst (poll server p timer w) = Ret b → timer < wait_timeout p.
Proof.
  unfold poll. unfold mbind at 1, M_bind at 1.
  destruct (get_vm_build_status server w) as [[[]| | | | |] w1]; try done.
  case_bool_decide; [done|]. intros _. lia.
Qed.

Lemma poll_does_not_sleep server p timer w :
  ∃ new, trace (snd (poll server p timer w)) = new ++ trace w ∧
         forallb polling_event new = true ∧ slept new = 0.
Proof.
  destruct (grows_poll
              (λ ev, polling_event ev && match ev with Sleep _ => false | _ => true end)
              server p timer eq_refl (λ _, eq_refl) w) as (new & Hnew & Hall).
  exists new. split; [done|].
  clear Hnew. induction new as [|ev new IH]; [done|].
  simpl in Hall. apply andb_true_iff in Hall as [Hev Hall].
  apply andb_true_iff in Hev as [Hev Hquiet].
  destruct (IH Hall) as [IH1 IH2]. split.
  - simpl. by rewrite Hev, IH1.
  - by destruct ev.
Qed.

(** X14: the polling loop only ever enters [get_vm_build_status], requests
    the status and sleeps 15 seconds at a time, and it sleeps only while the
    timer is below the timeout.  Started with the timer at [timer], the
    seconds it sleeps in total are 0, or stay below the timeout plus one
    interval: [timer + slept < wait_timeout + 15].  This holds for every
    service and every way the loop ends. *)
Theorem polling_never_oversleeps (server : list event → call → reply) (p : params)
    (fuel : nat) :
  ∀ (timer : Z) (w : world),
    ∃ new,
      trace (snd (poll_loop server p fuel timer w)) = new ++ trace w ∧
      forallb polling_event new = true ∧
      (slept new = 0 ∨ (0 < slept new ∧ timer + slept new < wait_timeout p + 15)).
Proof.
  induction fuel as [|fuel IH]; intros timer w.
  - exists []. by repeat split; try left.
  - cbn [poll_loop]. unfold mbind at 1, M_bind at 1.
    destruct (poll_does_not_sleep server p timer w) as (new1 & Hnew1 & Hall1 & Hslept1).
    pose proof (poll_continues_before_timeout server p timer w) as Hbefore.
    destruct (poll server p timer w) as [o [h1 t1]]. simpl in Hnew1, Hbefore.
    destruct o as [[|]| | | | |];
      try (exists new1; split; [done|]; split; [done|]; by left).
    specialize (Hbefore false eq_refl).
    exec. simpl.
    destruct (IH (timer + 15) {| self := h1; trace := Sleep 15 :: t1 |})
      as (new2 & Hnew2 & Hall2 & Hslept2).
    exists (new2 ++ Sleep 15 :: new1). split; [|split].
    + rewrite Hnew2. simpl. rewrite Hnew1. by rewrite <- app_assoc.
    + rewrite forallb_app, Hall2. simpl. by rewrite Hall1.
    + right. rewrite slept_app. simpl. rewrite Hslept1.
      destruct Hslept2 as [Hzero|[Hpos Hbound]]; lia.
Qed.

(** ** Where a raw exception can come from *)

Lemma confined_bind {A B} (m : M A) (f : A → M B) :
  confined m → (∀ a, confined (f a)) → confined (m ≫= f).
Proof.
  intros Hm Hf w e w'. unfold mbind, M_bind.
  destruct (m w) as [o w1] eqn:Hmw. destruct o as [a| | | | |]; try done.
  - apply Hf.
  - intros [= <- <-]. by eapply Hm.
Qed.

Lemma confined_settled {A} P (m : M A) : settled_on P m → confined m.
Proof.
  intros H w e w' Hmw. destruct (H w) as [Ho _]. by rewrite Hmw in Ho.
Qed.

Lemma confined_still {A} (o : outcome A) :
  (∀ e, o ≠ Raise e) → confined (λ w, (o, w)).
Proof. intros Ho w e w' [= -> _]. by destruct (Ho e). Qed.

Lemma customize_template_trace (p : params) (w : world) :
  trace (snd (customize_template p w)) = Invoke MCustomizeTemplate :: trace w.
Proof.
  unfold customize_template. exec. destruct w as [h t]. simpl.
  destruct (template_json h) as [[[document|e]|template]|]; simpl; try done.
  destruct document as [| | | [|c s] | [|x l] | m]; simpl; try done.
  all: by destruct (customize p _).
Qed.

Lemma confined_customize_template (p : params) : confined (customize_template p).
Proof.
  intros w e w' H. pose proof (customize_template_trace p w) as Ht.
  rewrite H in Ht. eauto.
Qed.

Lemma get_vm_build_status_ret_inv server w w' :
  get_vm_build_status server w = (Ret (), w') →
  ∃ status details, build_status (self w') = Some status ∧
                    build_explanation (self w') = Some details.
Proof.
  unfold get_vm_build_status. exec. destruct w as [h t]. simpl.
  destruct (request_id h) as [id|]; [|done].
  destruct (server _ _) as [msg|response]; [done|].
  destruct (state_name response) as [status|]; [|done].
  destruct (completion_details response) as [details|]; [|done].
  intros [= <-]. simpl. eauto.
Qed.

Lemma confined_poll server p timer : confined (poll server p timer).
Proof.
  intros w e w'. unfold poll. unfold mbind at 1, M_bind at 1.
  destruct (get_vm_build_status_settled server w) as [Hs _].
  destruct (get_vm_build_status server w) as [o w1] eqn:Hstatus.
  destruct o as [[]| | | | |]; try done.
  apply get_vm_build_status_ret_inv in Hstatus as (status & details & Hst & Hde).
  case_bool_decide; [done|]. exec. rewrite Hst.
  destruct (eq_str status "Failed").
  - rewrite Hde. by destruct details as [|[]| | | |].
  - by destruct (eq_str status "Successful").
Qed.

Lemma confined_poll_loop server p fuel : ∀ timer, confined (poll_loop server p fuel timer).
Proof.
  induction fuel as [|fuel IH]; intros timer; [by apply confined_still|].
  cbn [poll_loop]. apply confined_bind; [apply confined_poll|intros [|]].
  - by apply confined_still.
  - apply confined_bind; [|intros _; apply IH].
    apply (confined_settled (λ _, true)). by apply settled_record.
Qed.

(** After the state lookup the attributes [run_module] reads are there. *)
Lemma confined_report server p (result : result) :
  confined
    ((get_vm_state server p;;
      status ← attr "state" state;
      id ← attr "destroy_id" destroy_id;
      address ← get_ip;
      exit_json
        {| result_changed := result_changed result; result_failed := result_failed result;
           result_state := status; result_destroy_id := id;
           result_ip := address; result_hostname := JStr (hostname p) |}) : M unit).
Proof.
  intros w e w'. unfold mbind at 1, M_bind at 1.
  destruct (get_vm_state_settled (λ _, true) server p eq_refl (λ _, eq_refl) w) as [Hs _].
  destruct (get_vm_state server p w) as [o w1] eqn:Hstate.
  destruct o as [[]| | | | |]; try done.
  apply get_vm_state_ret_inv in Hstate as (status & id & Hid & ->).
  exec. simpl. by rewrite Hid.
Qed.

(** X15: [customize_template] is the only place an exception can escape
    from.  Whenever a run ends with a raw exception instead of [exit_json]
    or [fail_json], the last thing it did was enter [customize_template]:
    no request follows, and authentication, catalog lookup, template fetch,
    creation, polling and both lookups never let an exception out. *)
Theorem raw_exceptions_come_from_customization (server : list event → call → reply)
    (p : params) (check_mode : bool) (fuel : nat) (e : exn) (w : world) :
  run server p check_mode fuel = (Raise e, w) →
  ∃ t, trace w = Invoke MCustomizeTemplate :: t.
Proof.
  unfold run. apply (@confined_bind unit unit).
  { apply (confined_settled (λ _, true)). by apply get_auth_settled. }
  intros _. apply confined_bind.
  { apply (confined_settled (λ _, true)). by apply get_vm_settled. }
  intros _. apply confined_bind.
  { destruct check_mode; [|by apply confined_still].
    apply confined_bind; [by intros [h t] e' w' [=]|intros address].
    by apply confined_still. }
  intros _. apply confined_bind; [by intros [h t] e' w' [=]|intros address].
  apply confined_bind; [|intros result; apply confined_report].
  destruct (is_none address); [|by apply confined_still].
  cbv zeta.
  apply confined_bind; [apply (confined_settled _ _ (get_catalog_id_settled server p))|].
  intros _.
  apply confined_bind; [apply (confined_settled _ _ (get_template_json_settled server))|].
  intros _. apply confined_bind; [apply confined_customize_template|]. intros _.
  apply confined_bind;
    [apply (confined_settled _ _ (create_vm_from_template_settled server))|].
  intros _. apply confined_bind; [apply confined_poll_loop|]. intros _.
  apply confined_bind; [|intros _; by apply confined_still].
  apply (confined_settled (λ _, true)). by apply get_vm_settled.
Qed.

Lemma raw_exceptions_come_from_customization_witness :
  ∃ t,
    trace {| self := set_template_json (TResponse (Ok (obj [])))
                       (set_catalog_id (JStr "cat-2")
                          (set_authorization (JStr "token-1") new_helper));
             trace := [Invoke MCustomizeTemplate;
                       Http (GetRequestTemplate (JStr "cat-2")); Invoke MGetTemplateJson;
                       Http GetEntitledCatalogItems; Invoke MGetCatalogId;
                       Http GetVirtualResources; Invoke MGetVm;
                       Http (PostTokens "automation" "secret" "vsphere.local");
                       Invoke MGetAuth] |}
    = Invoke MCustomizeTemplate :: t.
Proof.
  apply (raw_exceptions_come_from_customization
           (scripted (with_template (ok (obj [])))) sample_params false 30
           (KeyError "'data'")).
  vm_compute. reflexivity.
Defined.

(** ** The [changed] flag *)

Lemma create_vm_from_template_ret_inv server w w' :
  create_vm_from_template server w = (Ret (), w') →
  ∃ id data t, trace w' = Http (PostRequests id data) :: t.
Proof.
  unfold create_vm_from_template. exec. destruct w as [h t]. simpl.
  destruct (catalog_id h) as [id|]; [|done].
  destruct (template_json h) as [[body|template]|]; try done.
  destruct (server _ _) as [msg|[body|e]]; try done.
  destruct (getitem body "id") as [rid|]; [|done].
  intros [= <-]. simpl. eauto.
Qed.

Lemma no_create_events (t : list event) :
  Forall (λ ev, negb (is_create ev) = true) t → existsb is_create t = false.
Proof.
  induction 1 as [|ev t Hev _ IH]; [done|].
  simpl. rewrite IH. by destruct (is_create ev).
Qed.

Lemma create_event_stays (w w' : world) :
  adds (λ _, true) w w' → existsb is_create (trace w) = true →
  existsb is_create (trace w') = true.
Proof.
  intros (new & -> & _) H. rewrite existsb_app, H. apply orb_true_r.
Qed.

Lemma customize_template_no_exit (p : params) (w : world) (r : result) :
  fst (customize_template p w) ≠ ExitJson r.
Proof.
  unfold customize_template. exec. destruct w as [h t]. simpl.
  destruct (template_json h) as [[[document|e]|template]|]; simpl; try done.
  destruct document as [| | | [|c s] | [|x l] | m]; simpl; try done.
  all: by destruct (customize p _).
Qed.

Lemma poll_no_exit server p timer (w : world) (r : result) :
  fst (poll server p timer w) ≠ ExitJson r.
Proof.
  unfold poll. unfold mbind at 1, M_bind at 1.
  destruct (get_vm_build_status_settled server w) as [Hs _].
  destruct (get_vm_build_status server w) as [[[]| | | | |] [h1 t1]]; try done.
  case_bool_decide; [done|]. exec. simpl.
  destruct (build_status h1) as [status|]; [|done].
  destruct (eq_str status "Failed").
  - destruct (build_explanation h1) as [details|]; [|done].
    by destruct details as [|[]| | | |].
  - by destruct (eq_str status "Successful").
Qed.

Lemma poll_loop_no_exit server p fuel :
  ∀ timer (w : world) (r : result), fst (poll_loop server p fuel timer w) ≠ ExitJson r.
Proof.
  induction fuel as [|fuel IH]; intros timer w r; [done|].
  cbn [poll_loop]. unfold mbind at 1, M_bind at 1.
  pose proof (poll_no_exit server p timer w) as Hpoll.
  destruct (poll server p timer w) as [[[|]| | | | |] w1]; simpl in Hpoll; try done.
  - exec. apply IH.
  - by destruct (Hpoll r0).
Qed.

(** X16: outside check mode, a run that exits through [exit_json] reports
    [changed] true exactly when it has posted a creation request; it always
    reports [failed] false and echoes the requested hostname. *)
Theorem changed_exactly_when_created (server : list event → call → reply) (p : params)
    (fuel : nat) (r : result) (w : world) :
  run server p false fuel = (ExitJson r, w) →
  result_changed r = existsb is_create (trace w) ∧
  result_failed r = false ∧
  result_hostname r = JStr (hostname p).
Proof.
  intros H.
  destruct (looked_up_settled (λ ev, negb (is_create ev)) server p
              eq_refl eq_refl eq_refl eq_refl (λ _, eq_refl)) as [Ho Ht].
  destruct (looked_up server p) as [o w1] eqn:Hlook. simpl in Ho, Ht.
  destruct o as [[]| | | | |]; try done;
    [|by rewrite (run_fails_with_lookup server p false fuel msg w1 Hlook) in H].
  rewrite (run_after_lookup server p false fuel w1 Hlook) in H.
  cbv [mbind M_bind mret M_ret get_ip exit_json] in H.
  destruct (is_none (ip (self w1))).
  - cbv zeta in H.
    destruct (get_catalog_id_settled server p w1) as [Hs2 _].
    destruct (get_catalog_id server p w1) as [[[]| | | | |] w2]; try done.
    destruct (get_template_json_settled server w2) as [Hs3 _].
    destruct (get_template_json server w2) as [[[]| | | | |] w3]; try done.
    pose proof (customize_template_no_exit p w3) as Hs4.
    destruct (customize_template p w3) as [[[]| | | | |] w4]; try done;
      [|by destruct (Hs4 r0)].
    destruct (create_vm_from_template_settled server w4) as [Hs5 _].
    destruct (create_vm_from_template server w4) as [[[]| | | | |] w5] eqn:Hcreate;
      try done.
    apply create_vm_from_template_ret_inv in Hcreate as (id & data & t & Hcreated).
    pose proof (grows_poll_loop (λ _, true) server p fuel eq_refl (λ _, eq_refl) eq_refl
                  0 w5) as Hpoll.
    pose proof (poll_loop_no_exit server p fuel 0 w5) as Hs6.
    destruct (poll_loop server p fuel 0 w5) as [[[]| | | | |] w6]; try done;
      [|by destruct (Hs6 r0)].
    destruct (get_vm_settled (λ _, true) server p eq_refl eq_refl (λ _, eq_refl) w6)
      as [Hs7 Hvm].
    destruct (get_vm server p w6) as [[[]| | | | |] w7]; try done.
    destruct (get_vm_state_settled (λ _, true) server p eq_refl (λ _, eq_refl) w7)
      as [Hs8 Hstate].
    destruct (get_vm_state server p w7) as [[[]| | | | |] w8]; try done.
    simpl in Hpoll, Hvm, Hstate.
    assert (Hevent : existsb is_create (trace w8) = true).
    { apply (create_event_stays w7); [done|]. apply (create_event_stays w6); [done|].
      apply (create_event_stays w5); [done|]. by rewrite Hcreated. }
    unfold attr in H.
    destruct (state (self w8)); [|done]. destruct (destroy_id (self w8)); [|done].
    injection H as <- <-. by rewrite Hevent.
  - destruct (get_vm_state_settled (λ ev, negb (is_create ev)) server p
                eq_refl (λ _, eq_refl) w1) as [Hs2 Hstate].
    destruct (get_vm_state server p w1) as [[[]| | | | |] w2]; try done.
    simpl in Hstate. pose proof (adds_Forall _ w1 w2 Ht Hstate) as Ht2.
    unfold attr in H.
    destruct (state (self w2)); [|done]. destruct (destroy_id (self w2)); [|done].
    injection H as <- <-. by rewrite (no_create_events _ Ht2).
Qed.

Lemma changed_exactly_when_created_witness :
  result_changed {| result_changed := true; result_failed := false;
                    result_state := JStr "On"; result_destroy_id := JStr "res-9";
                    result_ip := JStr "10.0.0.5"; result_hostname := JStr "web01" |}
  = existsb is_create (trace (snd (run (scripted sample_script) sample_params false 30))) ∧
  result_failed {| result_changed := true; result_failed := false;
                   result_state := JStr "On"; result_destroy_id := JStr "res-9";
                   result_ip := JStr "10.0.0.5"; result_hostname := JStr "web01" |}
  = false ∧
  result_hostname {| result_changed := true; result_failed := false;
                     result_state := JStr "On"; result_destroy_id := JStr "res-9";
                     result_ip := JStr "10.0.0.5"; result_hostname := JStr "web01" |}
  = JStr (hostname sample_params).
Proof.
  apply (changed_exactly_when_created (scripted sample_script) sample_params 30).
  vm_compute. reflexivity.
Defined.

(** ** From the customized template to the creation request *)

(** X17: customization followed by creation posts exactly the customized
    template, to the catalog id resolved before, in a single request; the id
    of the answer becomes the helper's request id and the customized
    template stays in [self.template_json]. *)
Theorem creation_posts_customized_template (server : list event → call → reply)
    (p : params) (w : world) (template : gmap string json)
    (template' id answer request : json) :
  template_json (self w) = Some (TResponse (Ok (JDict template))) →
  catalog_id (self w) = Some id →
  customize p template = Ok template' →
  server (Invoke MCreateVmFromTemplate :: Invoke MCustomizeTemplate :: trace w)
    (PostRequests id template') = Response (Ok answer) →
  getitem answer "id" = Ok request →
  (customize_template p;; create_vm_from_template server) w
  = (Ret (),
     {| self := set_request_id request (set_template_json (TDict template') (self w));
        trace := Http (PostRequests id template') :: Invoke MCreateVmFromTemplate
                 :: Invoke MCustomizeTemplate :: trace w |}).
Proof.
  intros Hslot Hid Hcustomize Hserver Hanswer.
  unfold customize_template, create_vm_from_template. exec.
  destruct w as [h t]. simpl in *.
  rewrite Hslot. simpl. rewrite Hcustomize. simpl. rewrite Hid. simpl.
  rewrite Hserver. simpl. rewrite Hanswer. reflexivity.
Qed.

Lemma creation_posts_customized_template_witness :
  (customize_template sample_params;; create_vm_from_template (scripted sample_script))
    sample_ready
  = (Ret (),
     {| self := set_request_id (JStr "req-7")
                  (set_template_json (TDict sample_customized) (self sample_ready));
        trace := Http (PostRequests (JStr "cat-2") sample_customized)
                 :: Invoke MCreateVmFromTemplate :: Invoke MCustomizeTemplate
                 :: trace sample_ready |}).
Proof.
  apply (creation_posts_customized_template (scripted sample_script) sample_params
           sample_ready sample_template sample_customized (JStr "cat-2")
           (obj [("id", JStr "req-7")]) (JStr "req-7")).
  - reflexivity.
  - reflexivity.
  - vm_compute. reflexivity.
  - reflexivity.
  - vm_compute. reflexivity.
Defined.

(** X18: the creation request is sent before its answer is looked at.  When
    the answer is not JSON or has no ['id'], [create_vm_from_template] ends
    in [fail_json] with the creation message although the request has been
    posted; no request id is stored. *)
Theorem creation_answer_without_id_fails (server : list event → call → reply)
    (w : world) (id template : json) (answer : res json) (e : exn) :
  catalog_id (self w) = Some id →
  template_json (self w) = Some (TDict template) →
  server (Invoke MCreateVmFromTemplate :: trace w) (PostRequests id template)
  = Response answer →
  (body ← answer; getitem body "id") = Err e →
  create_vm_from_template server w
  = (FailJson ("Failed to create VM from template: " +:+ str_exn e),
     {| self := self w;
        trace := Http (PostRequests id template) :: Invoke MCreateVmFromTemplate
                 :: trace w |}).
Proof.
  intros Hid Hslot Hserver Hanswer.
  unfold create_vm_from_template. exec. destruct w as [h t]. simpl in *.
  rewrite Hid, Hslot, Hserver. destruct answer as [body|e']; simpl in *.
  - by rewrite Hanswer.
  - by injection Hanswer as <-.
Qed.

Lemma creation_answer_without_id_fails_witness :
  create_vm_from_template (scripted (with_create (ok (obj [("errors", JList [])]))))
    {| self := set_template_json (TDict sample_customized) (self sample_ready);
       trace := Invoke MCustomizeTemplate :: trace sample_ready |}
  = (FailJson "Failed to create VM from template: 'id'",
     {| self := set_template_json (TDict sample_customized) (self sample_ready);
        trace := Http (PostRequests (JStr "cat-2") sample_customized)
                 :: Invoke MCreateVmFromTemplate :: Invoke MCustomizeTemplate
                 :: trace sample_ready |}).
Proof.
  apply (creation_answer_without_id_fails
           (scripted (with_create (ok (obj [("errors", JList [])]))))
           {| self := set_template_json (TDict sample_customized) (self sample_ready);
              trace := Invoke MCustomizeTemplate :: trace sample_ready |}
           (JStr "cat-2") sample_customized (Ok (obj [("errors", JList [])]))
           (KeyError "'id'")).
  - reflexivity.
  - reflexivity.
  - reflexivity.
  - vm_compute. reflexivity.
Defined.

(** ** A template answer that is not JSON *)

(** X19: [get_template_json] stores the response without parsing it, so an
    answer that is not JSON is accepted there; the parse error appears in
    [customize_template], which lets it out as a raw exception. *)
Theorem unparsable_template_fails_late (server : list event → call → reply) (p : params)
    (w : world) (id : json) (e : exn) :
  catalog_id (self w) = Some id →
  server (Invoke MGetTemplateJson :: trace w) (GetRequestTemplate id) = Response (Err e) →
  get_template_json server w
  = (Ret (), {| self := set_template_json (TResponse (Err e)) (self w);
                trace := Http (GetRequestTemplate id) :: Invoke MGetTemplateJson
                         :: trace w |}) ∧
  (get_template_json server;; customize_template p) w
  = (Raise e, {| self := set_template_json (TResponse (Err e)) (self w);
                 trace := Invoke MCustomizeTemplate :: Http (GetRequestTemplate id)
                          :: Invoke MGetTemplateJson :: trace w |}).
Proof.
  intros Hid Hserver. unfold get_template_json, customize_template. exec.
  destruct w as [h t]. simpl in *. rewrite Hid, Hserver. by split.
Qed.

Lemma unparsable_template_fails_late_witness :
  get_template_json
    (scripted (with_template (Response (Err (ValueError "Expecting value")))))
    {| self := set_catalog_id (JStr "cat-2") (self sample_authenticated);
       trace := trace sample_authenticated |}
  = (Ret (),
     {| self := set_template_json (TResponse (Err (ValueError "Expecting value")))
                  (set_catalog_id (JStr "cat-2") (self sample_authenticated));
        trace := Http (GetRequestTemplate (JStr "cat-2")) :: Invoke MGetTemplateJson
                 :: trace sample_authenticated |}) ∧
  (get_template_json
     (scripted (with_template (Response (Err (ValueError "Expecting value")))));;
   customize_template sample_params)
    {| self := set_catalog_id (JStr "cat-2") (self sample_authenticated);
       trace := trace sample_authenticated |}
  = (Raise (ValueError "Expecting value"),
     {| self := set_template_json (TResponse (Err (ValueError "Expecting value")))
                  (set_catalog_id (JStr "cat-2") (self sample_authenticated));
        trace := Invoke MCustomizeTemplate :: Http (GetRequestTemplate (JStr "cat-2"))
                 :: Invoke MGetTemplateJson :: trace sample_authenticated |}).
Proof.
  apply (unparsable_template_fails_late
           (scripted (with_template (Response (Err (ValueError "Expecting value")))))
           sample_params
           {| self := set_catalog_id (JStr "cat-2") (self sample_authenticated);
              trace := trace sample_authenticated |}
           (JStr "cat-2") (ValueError "Expecting value")).
  - reflexivity.
  - reflexivity.
Defined.

(** ** A status request that fails *)

(** X20: the status is fetched before the timeout is tested.  When the
    status request of a poll fails (refused, not JSON, no [stateName] or no
    [requestCompletion]) after polls that were all pending, the loop ends in
    [fail_json] with the status message, whether or not the elapsed time has
    reached the timeout at that poll. *)
Theorem failed_status_request_ends_polling (server : list event → call → reply)
    (p : params) (w0 : world) (id : json) (k fuel : nat) (e : exn) :
  request_id (self w0) = Some id →
  (∀ j, (j < k)%nat → pending server p id (trace w0) j) →
  (k < fuel)%nat →
  fetched server id (trace w0) k = Err e →
  fst (poll_loop server p fuel 0 w0)
  = FailJson ("Failed to get VM create status: " +:+ str_exn e).
Proof.
  intros Hid Hpending Hfuel Hfetch.
  destruct (poll_loop_reaches server p id (trace w0) k fuel w0 Hid eq_refl Hpending Hfuel)
    as (fuel' & w & -> & Hidw & Htracew).
  unfold fetched in Hfetch. rewrite <- Htracew in Hfetch.
  cbn [poll_loop]. unfold mbind at 1, M_bind at 1.
  pose proof (poll_err server p id (15 * Z.of_nat k) w e Hidw Hfetch) as Herr.
  destruct (poll server p (15 * Z.of_nat k) w) as [o w']. simpl in Herr. by subst o.
Qed.

Lemma failed_status_request_ends_polling_witness :
  fst (poll_loop (scripted (with_build interrupted)) (sample_with_timeout 15) 30 0
         sample_created)
  = FailJson "Failed to get VM create status: connection reset".
Proof.
  apply (failed_status_request_ends_polling (scripted (with_build interrupted))
           (sample_with_timeout 15) sample_created (JStr "req-7") 1 30
           (RequestException "connection reset")).
  - reflexivity.
  - intros j Hj. destruct j as [|j]; [settle_pending|lia].
  - lia.
  - vm_compute. reflexivity.
Defined.
